(** * vsomeipc: the C boundary and the application facade over vsomeip

    A shallow embedding of [vsomeipc.h], [vsomeipc.cpp], [application.h] and
    [application.cpp].  The vsomeip library itself is an external collaborator:
    what it returns is taken from an interface ([Vsomeip]) and every call the
    facade makes into it is recorded, in order, in the [calls] of the [world]. *)

From Stdlib Require Import ZArith String Ascii HexString.
From Stdlib Require Strings.Byte.
From stdpp Require Import base option list gmap strings.

Local Open Scope Z_scope.

(** ** Identifier types of [vsomeipc.h]

    All of them are fixed-width unsigned integers that the code only stores and
    passes on; they are carried as [Z]. *)

Abbreviation service_id := Z (only parsing).
Abbreviation instance_id := Z (only parsing).
Abbreviation method_id := Z (only parsing).
Abbreviation notifier_id := Z (only parsing).
Abbreviation client_id := Z (only parsing).
Abbreviation session_id := Z (only parsing).
Abbreviation eventgroup_id := Z (only parsing).
Abbreviation protocol_version := Z (only parsing).
Abbreviation interface_version := Z (only parsing).
Abbreviation major_version := Z (only parsing).
Abbreviation minor_version := Z (only parsing).

(** ** The enumerations of [vsomeipc.h]

    A C enum crosses the boundary as an [int]; the enumerators are names for
    their numeric values. *)

Abbreviation message_type := Z (only parsing).
Abbreviation MT_REQUEST := 0x00 (only parsing).
Abbreviation MT_REQUEST_NO_RETURN := 0x01 (only parsing).
Abbreviation MT_NOTIFICATION := 0x02 (only parsing).
Abbreviation MT_REQUEST_ACK := 0x40 (only parsing).
Abbreviation MT_REQUEST_NO_RETURN_ACK := 0x41 (only parsing).
Abbreviation MT_NOTIFICATION_ACK := 0x42 (only parsing).
Abbreviation MT_RESPONSE := 0x80 (only parsing).
Abbreviation MT_ERROR := 0x81 (only parsing).
Abbreviation MT_RESPONSE_ACK := 0xC0 (only parsing).
Abbreviation MT_ERROR_ACK := 0xC1 (only parsing).
Abbreviation MT_UNKNOWN := 0xFF (only parsing).

Abbreviation return_code := Z (only parsing).
Abbreviation E_OK := 0x00 (only parsing).
Abbreviation E_NOT_OK := 0x01 (only parsing).
Abbreviation E_UNKNOWN_SERVICE := 0x02 (only parsing).
Abbreviation E_UNKNOWN_METHOD := 0x03 (only parsing).
Abbreviation E_NOT_READY := 0x04 (only parsing).
Abbreviation E_NOT_REACHABLE := 0x05 (only parsing).
Abbreviation E_TIMEOUT := 0x06 (only parsing).
Abbreviation E_WRONG_PROTOCOL_VERSION := 0x07 (only parsing).
Abbreviation E_WRONG_INTERFACE_VERSION := 0x08 (only parsing).
Abbreviation E_MALFORMED_MESSAGE := 0x09 (only parsing).
Abbreviation E_WRONG_MESSAGE_TYPE := 0x0A (only parsing).
Abbreviation E_UNKNOWN := 0xFF (only parsing).

Inductive state_type_ce := DEREGISTERED | REGISTERED.
Inductive availability_state_e := AS_UNAVAILABLE | AS_AVAILABLE.

(** The recognized numeric values, as the two enum declarations list them. *)
Definition message_type_values : list Z :=
  [MT_REQUEST; MT_REQUEST_NO_RETURN; MT_NOTIFICATION; MT_REQUEST_ACK;
   MT_REQUEST_NO_RETURN_ACK; MT_NOTIFICATION_ACK; MT_RESPONSE; MT_ERROR;
   MT_RESPONSE_ACK; MT_ERROR_ACK; MT_UNKNOWN].

Definition return_code_values : list Z :=
  [E_OK; E_NOT_OK; E_UNKNOWN_SERVICE; E_UNKNOWN_METHOD; E_NOT_READY;
   E_NOT_REACHABLE; E_TIMEOUT; E_WRONG_PROTOCOL_VERSION;
   E_WRONG_INTERFACE_VERSION; E_MALFORMED_MESSAGE; E_WRONG_MESSAGE_TYPE;
   E_UNKNOWN].

(** ** The part of namespace [vsomeip] the facade touches *)

Module vsomeip.

Inductive message_type_e :=
| MT_REQUEST | MT_REQUEST_NO_RETURN | MT_NOTIFICATION
| MT_REQUEST_ACK | MT_REQUEST_NO_RETURN_ACK | MT_NOTIFICATION_ACK
| MT_RESPONSE | MT_ERROR | MT_RESPONSE_ACK | MT_ERROR_ACK | MT_UNKNOWN.

Inductive return_code_e :=
| E_OK | E_NOT_OK | E_UNKNOWN_SERVICE | E_UNKNOWN_METHOD | E_NOT_READY
| E_NOT_REACHABLE | E_TIMEOUT | E_WRONG_PROTOCOL_VERSION
| E_WRONG_INTERFACE_VERSION | E_MALFORMED_MESSAGE | E_WRONG_MESSAGE_TYPE
| E_UNKNOWN.

Inductive event_type_e := ET_EVENT | ET_SELECTIVE_EVENT | ET_FIELD | ET_UNKNOWN.
Inductive reliability_type_e := RT_RELIABLE | RT_UNRELIABLE | RT_BOTH | RT_UNKNOWN.

(** Modelled from the spec: the numeric value of each [vsomeip::message_type_e]
    enumerator.  The enum is declared in vsomeip's headers, not in this
    repository; the values are the wire-significant ones the spec fixes. *)
Definition message_type_value (e : message_type_e) : Z :=
  match e with
  | MT_REQUEST => 0x00 | MT_REQUEST_NO_RETURN => 0x01 | MT_NOTIFICATION => 0x02
  | MT_REQUEST_ACK => 0x40 | MT_REQUEST_NO_RETURN_ACK => 0x41
  | MT_NOTIFICATION_ACK => 0x42
  | MT_RESPONSE => 0x80 | MT_ERROR => 0x81
  | MT_RESPONSE_ACK => 0xC0 | MT_ERROR_ACK => 0xC1
  | MT_UNKNOWN => 0xFF
  end.

(** Modelled from the spec: the numeric value of each [vsomeip::return_code_e]
    enumerator, declared in vsomeip's headers. *)
Definition return_code_value (e : return_code_e) : Z :=
  match e with
  | E_OK => 0x00 | E_NOT_OK => 0x01 | E_UNKNOWN_SERVICE => 0x02
  | E_UNKNOWN_METHOD => 0x03 | E_NOT_READY => 0x04 | E_NOT_REACHABLE => 0x05
  | E_TIMEOUT => 0x06 | E_WRONG_PROTOCOL_VERSION => 0x07
  | E_WRONG_INTERFACE_VERSION => 0x08 | E_MALFORMED_MESSAGE => 0x09
  | E_WRONG_MESSAGE_TYPE => 0x0A | E_UNKNOWN => 0xFF
  end.

(** [vsomeip::payload]: what [get_data] points at; [get_length] is its
    length. *)
Record payload := { get_data : list Byte.byte }.

Definition get_length (p : payload) : Z := Z.of_nat (List.length (get_data p)).

(** [vsomeip::message]: one field per getter/setter pair the code uses.  The
    payload is a [shared_ptr], hence possibly null. *)
Record message := {
  get_service : Z;
  get_instance : Z;
  get_method : Z;
  get_client : Z;
  get_session : Z;
  get_protocol_version : Z;
  get_interface_version : Z;
  get_message_type : message_type_e;
  get_return_code : return_code_e;
  is_initial : bool;
  is_reliable : bool;
  get_payload : option payload
}.

Definition set_service (v : Z) (m : message) : message :=
  {| get_service := v; get_instance := get_instance m;
     get_method := get_method m; get_client := get_client m;
     get_session := get_session m;
     get_protocol_version := get_protocol_version m;
     get_interface_version := get_interface_version m;
     get_message_type := get_message_type m;
     get_return_code := get_return_code m; is_initial := is_initial m;
     is_reliable := is_reliable m; get_payload := get_payload m |}.

Definition set_instance (v : Z) (m : message) : message :=
  {| get_service := get_service m; get_instance := v;
     get_method := get_method m; get_client := get_client m;
     get_session := get_session m;
     get_protocol_version := get_protocol_version m;
     get_interface_version := get_interface_version m;
     get_message_type := get_message_type m;
     get_return_code := get_return_code m; is_initial := is_initial m;
     is_reliable := is_reliable m; get_payload := get_payload m |}.

Definition set_method (v : Z) (m : message) : message :=
  {| get_service := get_service m; get_instance := get_instance m;
     get_method := v; get_client := get_client m;
     get_session := get_session m;
     get_protocol_version := get_protocol_version m;
     get_interface_version := get_interface_version m;
     get_message_type := get_message_type m;
     get_return_code := get_return_code m; is_initial := is_initial m;
     is_reliable := is_reliable m; get_payload := get_payload m |}.

Definition set_client (v : Z) (m : message) : message :=
  {| get_service := get_service m; get_instance := get_instance m;
     get_method := get_method m; get_client := v;
     get_session := get_session m;
     get_protocol_version := get_protocol_version m;
     get_interface_version := get_interface_version m;
     get_message_type := get_message_type m;
     get_return_code := get_return_code m; is_initial := is_initial m;
     is_reliable := is_reliable m; get_payload := get_payload m |}.

Definition set_session (v : Z) (m : message) : message :=
  {| get_service := get_service m; get_instance := get_instance m;
     get_method := get_method m; get_client := get_client m;
     get_session := v;
     get_protocol_version := get_protocol_version m;
     get_interface_version := get_interface_version m;
     get_message_type := get_message_type m;
     get_return_code := get_return_code m; is_initial := is_initial m;
     is_reliable := is_reliable m; get_payload := get_payload m |}.

Definition set_interface_version (v : Z) (m : message) : message :=
  {| get_service := get_service m; get_instance := get_instance m;
     get_method := get_method m; get_client := get_client m;
     get_session := get_session m;
     get_protocol_version := get_protocol_version m;
     get_interface_version := v;
     get_message_type := get_message_type m;
     get_return_code := get_return_code m; is_initial := is_initial m;
     is_reliable := is_reliable m; get_payload := get_payload m |}.

Definition set_message_type (v : message_type_e) (m : message) : message :=
  {| get_service := get_service m; get_instance := get_instance m;
     get_method := get_method m; get_client := get_client m;
     get_session := get_session m;
     get_protocol_version := get_protocol_version m;
     get_interface_version := get_interface_version m;
     get_message_type := v;
     get_return_code := get_return_code m; is_initial := is_initial m;
     is_reliable := is_reliable m; get_payload := get_payload m |}.

Definition set_return_code (v : return_code_e) (m : message) : message :=
  {| get_service := get_service m; get_instance := get_instance m;
     get_method := get_method m; get_client := get_client m;
     get_session := get_session m;
     get_protocol_version := get_protocol_version m;
     get_interface_version := get_interface_version m;
     get_message_type := get_message_type m;
     get_return_code := v; is_initial := is_initial m;
     is_reliable := is_reliable m; get_payload := get_payload m |}.

Definition set_payload (v : option payload) (m : message) : message :=
  {| get_service := get_service m; get_instance := get_instance m;
     get_method := get_method m; get_client := get_client m;
     get_session := get_session m;
     get_protocol_version := get_protocol_version m;
     get_interface_version := get_interface_version m;
     get_message_type := get_message_type m;
     get_return_code := get_return_code m; is_initial := is_initial m;
     is_reliable := is_reliable m; get_payload := v |}.

(** [vsomeip::application]: the session object; the facade reads its name. *)
Record application := { get_name : string }.

(** [vsomeip::runtime] is a process-wide singleton. *)
Inductive runtime := the_runtime.

End vsomeip.

(** ** Calls into vsomeip and the interface to it *)

(** [std::thread]: all the code looks at is whether it is joinable. *)
Record std_thread := { joinable : bool }.

(** What the facade does to the outside: the member functions of
    [vsomeip::runtime] and [vsomeip::application] it calls, with their
    arguments, and the two operations on the dispatch thread. *)
Inductive action :=
| thread_start (app : vsomeip.application)
| thread_join
| app_stop (app : vsomeip.application)
| app_clear_all_handler (app : vsomeip.application)
| rt_remove_application (name : string)
| app_send (app : vsomeip.application) (msg : vsomeip.message)
| app_offer_event (app : vsomeip.application)
    (service instance notifier : Z) (event_groups : gset Z)
    (type : vsomeip.event_type_e) (cycle : Z)
    (change_resets_cycle update_on_change : bool)
    (reliability : vsomeip.reliability_type_e)
| app_request_event (app : vsomeip.application)
    (service instance event : Z) (event_groups : gset Z)
    (type : vsomeip.event_type_e)
    (reliability : vsomeip.reliability_type_e).

(** The library behind the facade.  [vs_state] is whatever the library keeps
    (sessions, counters, sockets); [vs_step] is how a call changes it; the other
    fields are the results the library hands back. *)
Class Vsomeip := {
  vs_state : Type;
  vs_step : vs_state → action → vs_state;
  vs_runtime_get : vs_state → option vsomeip.runtime;
  vs_create_application :
    vs_state → string → vs_state * option vsomeip.application;
  vs_init : vs_state → vsomeip.application → vs_state * bool;
  vs_create_payload : list Byte.byte → Z → option vsomeip.payload;
  vs_create_payload_empty : option vsomeip.payload;
  vs_create_message : bool → option vsomeip.message;
  vs_create_request : bool → option vsomeip.message;
  (** the message object as [vsomeip::application::send] leaves it *)
  vs_send : vs_state → vsomeip.application → vsomeip.message → vsomeip.message
}.

(** ** The facade object of [application.h] *)

Record application := {
  _runtime : option vsomeip.runtime;
  _application : option vsomeip.application;
  _dispatch_thread : std_thread;
  _state_connected : bool
}.

(** ** Heap cells

    A cell is allocated by [new], read through a pointer and released by
    [delete]; a released cell stays in the list as [None], so that a dangling
    pointer is told from a live one.  A pointer is [option nat]: [None] is
    [nullptr]. *)

Section cells.
Context {T : Type}.

Definition cell_new (v : T) (h : list (option T)) : nat * list (option T) :=
  (List.length h, h ++ [Some v]).

Definition cell_read (p : nat) (h : list (option T)) : option T :=
  mjoin (h !! p).

Definition cell_write (p : nat) (v : T) (h : list (option T)) : list (option T) :=
  <[p := Some v]> h.

Definition cell_delete (p : nat) (h : list (option T)) : list (option T) :=
  <[p := None]> h.
End cells.

Section facade.
Context `{Vsomeip}.

(** ** The state of the process *)

Record world := {
  vs : vs_state;
  (** calls into vsomeip and thread operations, oldest first *)
  calls : list action;
  (** what was written to [std::cerr] *)
  cerr : string;
  (** the [vsomeip::message] objects, by address *)
  messages : list (option vsomeip.message);
  (** the cells behind [application_t], [payload_t] and [message_t]; each
      holds a [shared_ptr], which may be null *)
  application_cells : list (option (option application));
  payload_cells : list (option (option vsomeip.payload));
  message_cells : list (option (option nat))
}.

Definition set_vs (f : vs_state → vs_state) (w : world) : world :=
  {| vs := f (vs w); calls := calls w; cerr := cerr w; messages := messages w;
     application_cells := application_cells w;
     payload_cells := payload_cells w; message_cells := message_cells w |}.

Definition set_calls (f : list action → list action) (w : world) : world :=
  {| vs := vs w; calls := f (calls w); cerr := cerr w; messages := messages w;
     application_cells := application_cells w;
     payload_cells := payload_cells w; message_cells := message_cells w |}.

Definition set_cerr (f : string → string) (w : world) : world :=
  {| vs := vs w; calls := calls w; cerr := f (cerr w); messages := messages w;
     application_cells := application_cells w;
     payload_cells := payload_cells w; message_cells := message_cells w |}.

Definition set_messages
    (f : list (option vsomeip.message) → list (option vsomeip.message))
    (w : world) : world :=
  {| vs := vs w; calls := calls w; cerr := cerr w; messages := f (messages w);
     application_cells := application_cells w;
     payload_cells := payload_cells w; message_cells := message_cells w |}.

Definition set_application_cells
    (f : list (option (option application)) → list (option (option application)))
    (w : world) : world :=
  {| vs := vs w; calls := calls w; cerr := cerr w; messages := messages w;
     application_cells := f (application_cells w);
     payload_cells := payload_cells w; message_cells := message_cells w |}.

Definition set_payload_cells
    (f : list (option (option vsomeip.payload)) → list (option (option vsomeip.payload)))
    (w : world) : world :=
  {| vs := vs w; calls := calls w; cerr := cerr w; messages := messages w;
     application_cells := application_cells w;
     payload_cells := f (payload_cells w); message_cells := message_cells w |}.

Definition set_message_cells
    (f : list (option (option nat)) → list (option (option nat)))
    (w : world) : world :=
  {| vs := vs w; calls := calls w; cerr := cerr w; messages := messages w;
     application_cells := application_cells w;
     payload_cells := payload_cells w; message_cells := f (message_cells w) |}.

(** ** Outcomes and the monad of the code

    A function returns, or ends the process through [exit], or hits a failed
    [assert] or a null or dangling pointer ([Faults]). *)

Inductive outcome (A : Type) :=
| Returns (a : A) (w : world)
| Exits (code : Z) (w : world)
| Faults.
Global Arguments Returns {A} a w.
Global Arguments Exits {A} code w.
Global Arguments Faults {A}.

Definition M (A : Type) : Type := world → outcome A.

Definition ret {A} (a : A) : M A := λ w, Returns a w.

Definition bind {A B} (m : M A) (k : A → M B) : M B :=
  λ w, match m w with
       | Returns a w' => k a w'
       | Exits c w' => Exits c w'
       | Faults => Faults
       end.

Definition fault {A} : M A := λ _, Faults.
Definition exit {A} (code : Z) : M A := λ w, Exits code w.
Definition gets {A} (f : world → A) : M A := λ w, Returns (f w) w.
Definition modify (f : world → world) : M unit := λ w, Returns tt (f w).

Definition assert (b : bool) : M unit := if b then ret tt else fault.

(** [*p] or [p->] on a smart or raw pointer. *)
Definition deref {A} (p : option A) : M A :=
  match p with Some a => ret a | None => fault end.

(** [std::cerr << s] *)
Definition cerr_write (s : string) : M unit :=
  modify (set_cerr (λ out, String.append out s)).

(** A call into vsomeip, or a thread operation: recorded, and the library
    moves on. *)
Definition emit (a : action) : M unit :=
  modify (λ w, set_vs (λ s, vs_step s a) (set_calls (λ l, l ++ [a]) w)).
End facade.

Declare Scope M_scope.
Notation "x ← m ; k" := (bind m (λ x, k))
  (at level 20, m at level 100, k at level 200, only parsing) : M_scope.
Notation "m ;; k" := (bind m (λ _, k))
  (at level 100, k at level 200, right associativity, only parsing) : M_scope.
Delimit Scope M_scope with M.

(** The line feed the diagnostics end with. *)
Definition nl : string := String "010"%char EmptyString.

(** [std::hex << (int)v]: an [int] is printed as the unsigned value of its 32
    bits, in lower-case digits. *)
Definition hex (v : Z) : string :=
  match v mod 2 ^ 32 with
  | Z.pos p => HexString.Raw.of_pos p EmptyString
  | _ => "0"%string
  end.

(** ** application.cpp *)

Section application.
Context `{Vsomeip}.
Local Open Scope M_scope.

Definition with_thread (this : application) (t : std_thread) : application :=
  {| _runtime := _runtime this; _application := _application this;
     _dispatch_thread := t; _state_connected := _state_connected this |}.

(** [application::application(runtime, application)] *)
Definition application_ctor
    (runtime : option vsomeip.runtime) (app : option vsomeip.application)
  : application :=
  {| _runtime := runtime; _application := app;
     _dispatch_thread := {| joinable := false |};
     _state_connected := false |}.

(** [application::start] *)
Definition start (this : application) : M application :=
  assert (negb (joinable (_dispatch_thread this)));;
  app ← deref (_application this);
  emit (thread_start app);;
  ret (with_thread this {| joinable := true |}).

(** [application::stop] *)
Definition stop (this : application) : M application :=
  app ← deref (_application this);
  emit (app_stop app);;
  if joinable (_dispatch_thread this) then
    emit thread_join;;
    ret (with_thread this {| joinable := false |})
  else ret this.

(** [application::create] *)
Definition create (name : string) : M (option application) :=
  runtime ← gets (λ w, vs_runtime_get (vs w));
  assert (bool_decide (is_Some runtime));;
  application ← (λ w, let '(s, a) := vs_create_application (vs w) name in
                      Returns a (set_vs (λ _, s) w));
  match application with
  | None =>
      cerr_write ("FAILED to create vsomeip::application object [" +:+ name
                  +:+ "]" +:+ nl);;
      ret None
  | Some app =>
      ok ← (λ w, let '(s, b) := vs_init (vs w) app in
                 Returns b (set_vs (λ _, s) w));
      if negb ok then
        cerr_write ("FAILED to initialize vsomeip::application [" +:+ name
                    +:+ "]" +:+ nl);;
        ret None
      else
        af ← start (application_ctor runtime application);
        ret (Some af)
  end.

(** [application::~application] *)
Definition application_dtor (this : application) : M application :=
  this ← match _application this with
         | Some app =>
             emit (app_clear_all_handler app);;
             this ← stop this;
             _ ← deref (_runtime this);
             emit (rt_remove_application (vsomeip.get_name app));;
             ret {| _runtime := _runtime this; _application := None;
                    _dispatch_thread := _dispatch_thread this;
                    _state_connected := _state_connected this |}
         | None => ret this
         end;
  ret {| _runtime := None; _application := _application this;
         _dispatch_thread := _dispatch_thread this;
         _state_connected := _state_connected this |}.

(** [application::name] *)
Definition name (this : application) : M string :=
  app ← deref (_application this);
  ret (vsomeip.get_name app).

(** [application::create_payload_empty] *)
Definition create_payload_empty (this : application) : M (option vsomeip.payload) :=
  _ ← deref (_runtime this);
  ret vs_create_payload_empty.

(** [application::create_payload] *)
Definition create_payload (this : application)
    (data : list Byte.byte) (size : Z) : M (option vsomeip.payload) :=
  _ ← deref (_runtime this);
  ret (vs_create_payload data size).

(** A message the runtime has just made: the object is placed in the store
    and the [shared_ptr] to it returned. *)
Definition new_message (m : option vsomeip.message) : M (option nat) :=
  match m with
  | None => ret None
  | Some m => λ w, let '(p, h) := cell_new m (messages w) in
                   Returns (Some p) (set_messages (λ _, h) w)
  end.

(** [msg->set_...(v)] *)
Definition msg_set (msg : option nat)
    (f : vsomeip.message → vsomeip.message) : M unit :=
  p ← deref msg;
  m ← (λ w, deref (cell_read p (messages w)) w);
  modify (set_messages (cell_write p (f m))).

(** [msg->get_...()] *)
Definition msg_get {A} (msg : option nat) (f : vsomeip.message → A) : M A :=
  p ← deref msg;
  m ← (λ w, deref (cell_read p (messages w)) w);
  ret (f m).

(** [_application->send(msg)]: the library sees the object as it is now and
    may write to it (it assigns the client and session ids). *)
Definition send (this : application) (msg : option nat) : M unit :=
  app ← deref (_application this);
  m ← msg_get msg id;
  m' ← gets (λ w, vs_send (vs w) app m);
  emit (app_send app m);;
  msg_set msg (λ _, m').

(** [application::create_message] *)
Definition create_message (this : application) : M (option nat) :=
  _ ← deref (_runtime this);
  new_message (vs_create_message false).

(** [application::send_request] *)
Definition send_request (this : application)
    (service instance method major : Z) (data : list Byte.byte) (data_len : Z)
    (reliable : bool) : M Z :=
  _ ← deref (_runtime this);
  let payload := vs_create_payload data data_len in
  msg ← new_message (vs_create_request reliable);
  msg_set msg (vsomeip.set_service service);;
  msg_set msg (vsomeip.set_instance instance);;
  msg_set msg (vsomeip.set_method method);;
  msg_set msg (vsomeip.set_payload payload);;
  msg_set msg (vsomeip.set_interface_version major);;
  send this msg;;
  msg_get msg vsomeip.get_session.

(** [application::send_response] *)
Definition send_response (this : application)
    (service instance method client session major : Z) (reliable : bool)
    (rc : vsomeip.return_code_e) (data : list Byte.byte) (data_len : Z)
  : M unit :=
  _ ← deref (_runtime this);
  let payload := vs_create_payload data data_len in
  msg ← new_message (vs_create_message reliable);
  msg_set msg (vsomeip.set_service service);;
  msg_set msg (vsomeip.set_instance instance);;
  msg_set msg (vsomeip.set_method method);;
  msg_set msg (vsomeip.set_client client);;
  msg_set msg (vsomeip.set_session session);;
  msg_set msg (vsomeip.set_interface_version major);;
  msg_set msg (vsomeip.set_message_type vsomeip.MT_RESPONSE);;
  msg_set msg (vsomeip.set_return_code rc);;
  msg_set msg (vsomeip.set_payload payload);;
  send this msg.

(** [application::send_error] *)
Definition send_error (this : application)
    (service instance method client session major : Z) (reliable : bool)
    (rc : vsomeip.return_code_e) : M unit :=
  _ ← deref (_runtime this);
  msg ← new_message (vs_create_message reliable);
  msg_set msg (vsomeip.set_service service);;
  msg_set msg (vsomeip.set_instance instance);;
  msg_set msg (vsomeip.set_method method);;
  msg_set msg (vsomeip.set_client client);;
  msg_set msg (vsomeip.set_session session);;
  msg_set msg (vsomeip.set_interface_version major);;
  msg_set msg (vsomeip.set_message_type vsomeip.MT_RESPONSE);;
  msg_set msg (vsomeip.set_return_code rc);;
  send this msg.

(** [application::request_event]; the defaults of the declaration are
    [ET_EVENT] and [RT_UNKNOWN]. *)
Definition request_event (this : application)
    (service instance event : Z) (event_groups : gset Z)
    (type : vsomeip.event_type_e) (reliability : vsomeip.reliability_type_e)
  : M unit :=
  app ← deref (_application this);
  emit (app_request_event app service instance event event_groups type
          reliability).

(** [application::offer_event]; the epsilon-change function is always the
    default [nullptr] and is left out. *)
Definition offer_event (this : application)
    (service instance notifier : Z) (event_groups : gset Z)
    (type : vsomeip.event_type_e) (cycle : Z)
    (change_resets_cycle update_on_change : bool)
    (reliability : vsomeip.reliability_type_e) : M unit :=
  app ← deref (_application this);
  emit (app_offer_event app service instance notifier event_groups type cycle
          change_resets_cycle update_on_change reliability).
End application.

(** ** vsomeipc.cpp *)

(** [struct PayloadInfo]: [data] is a pointer into the payload, carried as the
    bytes readable there ([None] is [nullptr]); [len] is a [uint32_t]. *)
Record PayloadInfo := { data : option (list Byte.byte); len : Z }.

(** The [len] bytes a [PayloadInfo] describes. *)
Definition view (i : PayloadInfo) : list Byte.byte :=
  match data i with
  | Some bytes => take (Z.to_nat (len i)) bytes
  | None => []
  end.

Section vsomeipc.
Context `{Vsomeip}.
Local Open Scope M_scope.

(** [assert(app && *app)] and the dereference of the handle that follows *)
Definition handle (app : option nat) : M application :=
  p ← deref app;
  sp ← (λ w, deref (cell_read p (application_cells w)) w);
  deref sp.

(** [create_application] *)
Definition create_application (name : string) : M (option nat) :=
  af ← create name;
  match af with
  | Some _ =>
      λ w, let '(p, h) := cell_new af (application_cells w) in
           Returns (Some p) (set_application_cells (λ _, h) w)
  | None => ret None
  end.

(** [application_delete]: [delete app] drops the only reference to the facade
    object, whose destructor runs before the cell is released. *)
Definition application_delete (app : option nat) : M unit :=
  match app with
  | None => ret tt
  | Some p =>
      sp ← (λ w, deref (cell_read p (application_cells w)) w);
      match sp with
      | Some this =>
          application_dtor this;;
          modify (set_application_cells (cell_delete p))
      | None => ret tt
      end
  end.

(** [application_get_name] *)
Definition application_get_name (app : option nat) : M string :=
  this ← handle app;
  name this.

(** [application_payload_create] *)
Definition application_payload_create (app : option nat)
    (data : list Byte.byte) (size : Z) : M (option nat) :=
  this ← handle app;
  pl ← create_payload this data size;
  match pl with
  | Some _ =>
      λ w, let '(p, h) := cell_new pl (payload_cells w) in
           Returns (Some p) (set_payload_cells (λ _, h) w)
  | None => ret None
  end.

(** [payload_create_empty] *)
Definition payload_create_empty (app : option nat) : M (option nat) :=
  this ← handle app;
  pl ← create_payload_empty this;
  match pl with
  | Some _ =>
      λ w, let '(p, h) := cell_new pl (payload_cells w) in
           Returns (Some p) (set_payload_cells (λ _, h) w)
  | None => ret None
  end.

(** [payload_destroy]: [delete] of a null pointer does nothing; of a pointer
    to no live cell it is undefined. *)
Definition payload_destroy (pl : option nat) : M unit :=
  match pl with
  | None => ret tt
  | Some p =>
      _ ← (λ w, deref (cell_read p (payload_cells w)) w);
      modify (set_payload_cells (cell_delete p))
  end.

(** [static vsomeip::message_type_e from(message_type mt)] *)
Definition from_message_type (mt : message_type) : M vsomeip.message_type_e :=
  match mt with
  | MT_REQUEST => ret vsomeip.MT_REQUEST
  | MT_REQUEST_NO_RETURN => ret vsomeip.MT_REQUEST_NO_RETURN
  | MT_NOTIFICATION => ret vsomeip.MT_NOTIFICATION
  | MT_REQUEST_ACK => ret vsomeip.MT_REQUEST_ACK
  | MT_REQUEST_NO_RETURN_ACK => ret vsomeip.MT_REQUEST_NO_RETURN_ACK
  | MT_NOTIFICATION_ACK => ret vsomeip.MT_NOTIFICATION_ACK
  | MT_RESPONSE => ret vsomeip.MT_RESPONSE
  | MT_ERROR => ret vsomeip.MT_ERROR
  | MT_RESPONSE_ACK => ret vsomeip.MT_RESPONSE_ACK
  | MT_ERROR_ACK => ret vsomeip.MT_ERROR_ACK
  | MT_UNKNOWN => ret vsomeip.MT_UNKNOWN
  | _ =>
      cerr_write ("Invalid message_type from Rust-FFI: 0x" +:+ hex mt +:+ nl);;
      exit 1
  end.

(** [static vsomeip::return_code_e from(return_code rt)] *)
Definition from_return_code (rt : return_code) : M vsomeip.return_code_e :=
  match rt with
  | E_OK => ret vsomeip.E_OK
  | E_NOT_OK => ret vsomeip.E_NOT_OK
  | E_UNKNOWN_SERVICE => ret vsomeip.E_UNKNOWN_SERVICE
  | E_UNKNOWN_METHOD => ret vsomeip.E_UNKNOWN_METHOD
  | E_NOT_READY => ret vsomeip.E_NOT_READY
  | E_NOT_REACHABLE => ret vsomeip.E_NOT_REACHABLE
  | E_TIMEOUT => ret vsomeip.E_TIMEOUT
  | E_WRONG_PROTOCOL_VERSION => ret vsomeip.E_WRONG_PROTOCOL_VERSION
  | E_WRONG_INTERFACE_VERSION => ret vsomeip.E_WRONG_INTERFACE_VERSION
  | E_MALFORMED_MESSAGE => ret vsomeip.E_MALFORMED_MESSAGE
  | E_WRONG_MESSAGE_TYPE => ret vsomeip.E_WRONG_MESSAGE_TYPE
  | E_UNKNOWN => ret vsomeip.E_UNKNOWN
  | _ =>
      cerr_write ("Invalid return_code from Rust-FFI: 0x" +:+ hex rt +:+ nl);;
      exit 1
  end.

(** [application_create_message]; here [data] may be [nullptr] ([None]). *)
Definition application_create_message (app : option nat)
    (service instance method session : Z)
    (message_type : message_type) (return_code : return_code)
    (data : option (list Byte.byte)) (data_size : Z) : M (option nat) :=
  this ← handle app;
  msg ← create_message this;
  match msg with
  | Some _ =>
      msg_set msg (vsomeip.set_service service);;
      msg_set msg (vsomeip.set_instance instance);;
      msg_set msg (vsomeip.set_method method);;
      msg_set msg (vsomeip.set_session session);;
      mt ← from_message_type message_type;
      msg_set msg (vsomeip.set_message_type mt);;
      rc ← from_return_code return_code;
      msg_set msg (vsomeip.set_return_code rc);;
      (if 0 <? data_size then
         bytes ← deref data;
         pl ← create_payload this bytes data_size;
         msg_set msg (vsomeip.set_payload pl)
       else ret tt);;
      λ w, let '(p, h) := cell_new msg (message_cells w) in
           Returns (Some p) (set_message_cells (λ _, h) w)
  | None => ret None
  end.

(** [message_destroy] *)
Definition message_destroy (msg : option nat) : M unit :=
  match msg with
  | None => ret tt
  | Some p =>
      _ ← (λ w, deref (cell_read p (message_cells w)) w);
      modify (set_message_cells (cell_delete p))
  end.

(** The loop [for (int i = 0; i < event_groups_size; ++i)
    event_groups_set.emplace(event_groups[i]);] from index [i] on, with
    [count] rounds to go.  Reading past the caller's array is undefined. *)
Fixpoint emplace_from (event_groups : list eventgroup_id) (i count : nat)
    (event_groups_set : gset Z) : M (gset Z) :=
  match count with
  | O => ret event_groups_set
  | S count =>
      g ← deref (event_groups !! i);
      emplace_from event_groups (S i) count ({[g]} ∪ event_groups_set)
  end.

(** The set both registration functions build.  The counter is an [int]
    compared with a [uint32_t]: from [2^31] rounds on, [++i] overflows. *)
Definition event_groups_to_set (event_groups : option (list eventgroup_id))
    (event_groups_size : Z) : M (gset Z) :=
  event_groups ← deref event_groups;
  assert (event_groups_size <? 2 ^ 31);;
  emplace_from event_groups 0 (Z.to_nat event_groups_size) ∅.

(** [application_offer_event] *)
Definition application_offer_event (app : option nat)
    (service instance notifier : Z)
    (event_groups : option (list eventgroup_id)) (event_groups_size : Z)
    (is_field : bool) (cycle : Z)
    (change_resets_cycle update_on_change : bool) : M unit :=
  this ← handle app;
  event_groups_set ← event_groups_to_set event_groups event_groups_size;
  offer_event this service instance notifier event_groups_set
    (if is_field then vsomeip.ET_FIELD else vsomeip.ET_EVENT)
    cycle change_resets_cycle update_on_change vsomeip.RT_UNKNOWN.

(** [application_request_event] *)
Definition application_request_event (app : option nat)
    (service instance notifier : Z)
    (event_groups : option (list eventgroup_id)) (event_groups_size : Z)
    (is_field : bool) : M unit :=
  this ← handle app;
  event_groups_set ← event_groups_to_set event_groups event_groups_size;
  request_event this service instance notifier event_groups_set
    (if is_field then vsomeip.ET_FIELD else vsomeip.ET_EVENT)
    vsomeip.RT_UNKNOWN.

(** [application_send_request] *)
Definition application_send_request (app : option nat)
    (service instance method major : Z) (reliable : bool)
    (data : list Byte.byte) (data_len : Z) : M session_id :=
  this ← handle app;
  send_request this service instance method major data data_len reliable.

(** [application_send_response]; the argument [from(rc)] is evaluated before
    the call. *)
Definition application_send_response (app : option nat)
    (service instance method client session major : Z) (reliable : bool)
    (rc : return_code) (data : list Byte.byte) (data_len : Z) : M unit :=
  this ← handle app;
  rc ← from_return_code rc;
  send_response this service instance method client session major reliable
    rc data data_len.

(** [application_send_error] *)
Definition application_send_error (app : option nat)
    (service instance method client session major : Z) (reliable : bool)
    (rc : return_code) : M unit :=
  this ← handle app;
  rc ← from_return_code rc;
  send_error this service instance method client session major reliable rc.

(** [payload_get_info] *)
Definition payload_get_info (pl : option nat) : M PayloadInfo :=
  p ← deref pl;
  sp ← (λ w, deref (cell_read p (payload_cells w)) w);
  match sp with
  | Some payload =>
      ret {| data := Some (vsomeip.get_data payload);
             len := vsomeip.get_length payload mod 2 ^ 32 |}
  | None => ret {| data := None; len := 0 |}
  end.
End vsomeipc.

(** ** Inbound messages (vsomeipc.h, vsomeipc.cpp) *)

(** [vsomeip::message::get_length], which the header record copies into
    [data_size]; the library computes it. *)
Class VsomeipMessageLength := { vs_get_length : vsomeip.message → Z }.

Module hdr.
(** [struct message_header]: the enums are carried by their numeric values,
    [data] as the bytes readable at the pointer ([None] is [nullptr]). *)
Record message_header := {
  service : Z;
  instance : Z;
  method : Z;
  client : Z;
  session : Z;
  proto_version : Z;
  if_version : Z;
  message_type : Z;
  return_code : Z;
  is_initial : bool;
  is_reliable : bool;
  data : option (list Byte.byte);
  data_size : Z
}.
End hdr.

Section inbound.
Context `{Vsomeip} `{VsomeipMessageLength}.
Local Open Scope M_scope.

(** [make_message_header]; the casts from the vsomeip enum classes to the C
    enums keep the numeric value. *)
Definition make_message_header (msg : option vsomeip.message)
  : M hdr.message_header :=
  m ← deref msg;
  ret {| hdr.service := vsomeip.get_service m;
         hdr.instance := vsomeip.get_instance m;
         hdr.method := vsomeip.get_method m;
         hdr.client := vsomeip.get_client m;
         hdr.session := vsomeip.get_session m;
         hdr.proto_version := vsomeip.get_protocol_version m;
         hdr.if_version := vsomeip.get_interface_version m;
         hdr.message_type :=
           vsomeip.message_type_value (vsomeip.get_message_type m);
         hdr.return_code :=
           vsomeip.return_code_value (vsomeip.get_return_code m);
         hdr.is_initial := vsomeip.is_initial m;
         hdr.is_reliable := vsomeip.is_reliable m;
         hdr.data := match vsomeip.get_payload m with
                     | Some pl => Some (vsomeip.get_data pl)
                     | None => None
                     end;
         hdr.data_size := vs_get_length m |}.

(** The body of the message handler that [application_register_handlers]
    installs, up to the call of the foreign [msg_handler]: the header and the
    payload handle it passes.  The handle is a new cell holding the message's
    payload pointer, null or not. *)
Definition message_handler_arguments (msg : option vsomeip.message)
  : M (hdr.message_header * option nat) :=
  header ← make_message_header msg;
  m ← deref msg;
  λ w, let '(p, h) := cell_new (vsomeip.get_payload m) (payload_cells w) in
       Returns (header, Some p) (set_payload_cells (λ _, h) w).
End inbound.

(** The state after the calls [l] have been made, one after the other. *)
Definition emits `{Vsomeip} (l : list action) (w : world) : world :=
  foldl (λ w a, set_vs (λ s, vs_step s a) (set_calls (λ cs, cs ++ [a]) w)) w l.

(** ** A stand-in for the library

    A small, deterministic vsomeip used to run the code on concrete inputs: it
    hands out session ids from a counter and stamps requests with client
    [0x0101]; [create_ok] and [init_ok] say whether creating and initializing a
    session succeed. *)

Definition stub_message (reliable : bool) : vsomeip.message :=
  {| vsomeip.get_service := 0; vsomeip.get_instance := 0;
     vsomeip.get_method := 0; vsomeip.get_client := 0;
     vsomeip.get_session := 0; vsomeip.get_protocol_version := 1;
     vsomeip.get_interface_version := 0;
     vsomeip.get_message_type := vsomeip.MT_UNKNOWN;
     vsomeip.get_return_code := vsomeip.E_OK;
     vsomeip.is_initial := false; vsomeip.is_reliable := reliable;
     vsomeip.get_payload := Some {| vsomeip.get_data := [] |} |}.

Definition stub_is_request (m : vsomeip.message) : bool :=
  match vsomeip.get_message_type m with
  | vsomeip.MT_REQUEST | vsomeip.MT_REQUEST_NO_RETURN => true
  | _ => false
  end.

Definition stub (create_ok init_ok : bool) : Vsomeip :=
  {| vs_state := Z;
     vs_step := λ s a, match a with app_send _ _ => s + 1 | _ => s end;
     vs_runtime_get := λ _, Some vsomeip.the_runtime;
     vs_create_application := λ s name,
       (s, if create_ok then Some {| vsomeip.get_name := name |} else None);
     vs_init := λ s _, (s, init_ok);
     vs_create_payload := λ data size,
       Some {| vsomeip.get_data := take (Z.to_nat size) data |};
     vs_create_payload_empty := Some {| vsomeip.get_data := [] |};
     vs_create_message := λ reliable, Some (stub_message reliable);
     vs_create_request := λ reliable,
       Some (vsomeip.set_message_type vsomeip.MT_REQUEST (stub_message reliable));
     vs_send := λ s _ m,
       if stub_is_request m
       then vsomeip.set_session (s + 1) (vsomeip.set_client 0x0101 m)
       else m |}.

(** The process before anything has happened. *)
Definition boot `{Vsomeip} (s : vs_state) : world :=
  {| vs := s; calls := []; cerr := EmptyString; messages := [];
     application_cells := []; payload_cells := []; message_cells := [] |}.

(** A facade object as [create] leaves it, for the session [app]. *)
Definition started (app : vsomeip.application) : application :=
  {| _runtime := Some vsomeip.the_runtime; _application := Some app;
     _dispatch_thread := {| joinable := true |}; _state_connected := false |}.

Definition A1 : vsomeip.application := {| vsomeip.get_name := "A1" |}.

(** The process after [create_application("A1")] has succeeded: handle [0]
    is the application. *)
Definition running `{Vsomeip} (s : vs_state) : world :=
  {| vs := s; calls := [thread_start A1]; cerr := EmptyString; messages := [];
     application_cells := [Some (Some (started A1))];
     payload_cells := []; message_cells := [] |}.

(** A library in which things go wrong: [runtime::get()] gives nothing when
    [runtime_ok] is off, and no message is made when [message_ok] is off. *)
Definition faulty_stub (runtime_ok message_ok : bool) : Vsomeip :=
  {| vs_state := Z;
     vs_step := @vs_step (stub true true);
     vs_runtime_get := λ _,
       if runtime_ok then Some vsomeip.the_runtime else None;
     vs_create_application := @vs_create_application (stub true true);
     vs_init := @vs_init (stub true true);
     vs_create_payload := @vs_create_payload (stub true true);
     vs_create_payload_empty := @vs_create_payload_empty (stub true true);
     vs_create_message := λ reliable,
       if message_ok then Some (stub_message reliable) else None;
     vs_create_request := λ reliable,
       if message_ok
       then Some (vsomeip.set_message_type vsomeip.MT_REQUEST
                    (stub_message reliable))
       else None;
     vs_send := @vs_send (stub true true) |}.

(** The length vsomeip reports: eight header bytes and the payload. *)
Definition stub_length : VsomeipMessageLength :=
  {| vs_get_length := λ m,
       8 + match vsomeip.get_payload m with
           | Some pl => vsomeip.get_length pl
           | None => 0
           end |}.

(** A request as it comes in from client 0x07 with two payload bytes. *)
Definition inbound_request : vsomeip.message :=
  {| vsomeip.get_service := 0x1234; vsomeip.get_instance := 0x0001;
     vsomeip.get_method := 0x0421; vsomeip.get_client := 0x07;
     vsomeip.get_session := 0x0042; vsomeip.get_protocol_version := 1;
     vsomeip.get_interface_version := 1;
     vsomeip.get_message_type := vsomeip.MT_REQUEST;
     vsomeip.get_return_code := vsomeip.E_OK;
     vsomeip.is_initial := false; vsomeip.is_reliable := true;
     vsomeip.get_payload :=
       Some {| vsomeip.get_data := [Byte.x68; Byte.x69] |} |}.

(** A process with the application of [running], two payload handles (the
    second with a null payload pointer behind it) and one message handle. *)
Definition furnished `{Vsomeip} (s : vs_state) : world :=
  {| vs := s; calls := [thread_start A1]; cerr := EmptyString;
     messages := [Some inbound_request];
     application_cells := [Some (Some (started A1))];
     payload_cells :=
       [Some (Some {| vsomeip.get_data := [Byte.x68; Byte.x69] |}); Some None];
     message_cells := [Some (Some 0%nat)] |}.

(** ** What is assumed of the library

    [create_payload(data, size)] copies the [size] bytes at [data] into a new
    payload, and [create_payload()] makes a payload of no bytes; neither
    returns a null pointer. *)
Class VsomeipPayloads `{Vsomeip} : Prop := {
  create_payload_copies (data : list Byte.byte) (size : Z) :
    ∃ pl, vs_create_payload data size = Some pl ∧
          vsomeip.get_data pl = take (Z.to_nat size) data;
  create_payload_empty_is_empty :
    ∃ pl, vs_create_payload_empty = Some pl ∧ vsomeip.get_data pl = []
}.

(** A payload pointer that carries no bytes: null, or a payload of length 0. *)
Definition no_payload_bytes (pl : option vsomeip.payload) : Prop :=
  match pl with
  | Some p => vsomeip.get_data p = []
  | None => True
  end.

(** * Properties *)

(** ** Running the monad *)

Section run.
Context `{Vsomeip}.

Lemma bind_Returns {A B} (m : M A) (k : A → M B) w a w' :
  m w = Returns a w' → bind m k w = k a w'.
Proof. unfold bind. by intros ->. Qed.

Lemma bind_Exits {A B} (m : M A) (k : A → M B) w c w' :
  m w = Exits c w' → bind m k w = Exits c w'.
Proof. unfold bind. by intros ->. Qed.

Lemma bind_Faults {A B} (m : M A) (k : A → M B) w :
  m w = Faults → bind m k w = Faults.
Proof. unfold bind. by intros ->. Qed.

Lemma cell_read_new {T} (h : list (option T)) (v : T) :
  cell_read (List.length h) (h ++ [Some v]) = Some v.
Proof. unfold cell_read. by rewrite list_lookup_middle. Qed.

Lemma cell_write_new {T} (h : list (option T)) (v v' : T) :
  cell_write (List.length h) v' (h ++ [Some v]) = h ++ [Some v'].
Proof.
  unfold cell_write. rewrite insert_app_r_alt by lia.
  by rewrite Nat.sub_diag.
Qed.

Lemma cell_read_old {T} (h : list (option T)) (v : T) (p : nat) :
  (p < List.length h)%nat → cell_read p (h ++ [Some v]) = cell_read p h.
Proof. intros Hp. unfold cell_read. by rewrite lookup_app_l. Qed.
End run.

(** ** Enum translation *)

Section translation.
Context `{Vsomeip}.

(** The enumerators of [return_code] are the values 0x00 to 0x0A and 0xFF. *)
Lemma return_code_values_range (v : Z) :
  v ∈ return_code_values ↔ 0x00 ≤ v ≤ 0x0A ∨ v = 0xFF.
Proof.
  unfold return_code_values. rewrite !elem_of_cons, elem_of_nil. lia.
Qed.

Lemma from_message_type_recognized (v : Z) (w : world) :
  v ∈ message_type_values →
  ∃ e, from_message_type v w = Returns e w ∧ vsomeip.message_type_value e = v.
Proof.
  unfold message_type_values. intros Hin.
  repeat (apply elem_of_cons in Hin as [-> | Hin]);
    try (eexists; split; reflexivity).
  by apply elem_of_nil in Hin.
Qed.

Lemma from_message_type_unrecognized (v : Z) (w : world) :
  v ∉ message_type_values →
  from_message_type v w =
  Exits 1 (set_cerr
             (λ out, String.append out
                ("Invalid message_type from Rust-FFI: 0x" +:+ hex v +:+ nl))
             w).
Proof.
  intros Hout. unfold from_message_type.
  repeat match goal with
         | |- context [match ?p with _ => _ end] => is_var p; destruct p
         end;
    try reflexivity;
    exfalso; apply Hout; unfold message_type_values;
    rewrite !elem_of_cons; tauto.
Qed.

Lemma from_return_code_recognized (v : Z) (w : world) :
  0x00 ≤ v ≤ 0x0A ∨ v = 0xFF →
  ∃ e, from_return_code v w = Returns e w ∧ vsomeip.return_code_value e = v.
Proof.
  intros Hin.
  assert (v = 0 ∨ v = 1 ∨ v = 2 ∨ v = 3 ∨ v = 4 ∨ v = 5 ∨ v = 6 ∨ v = 7 ∨
          v = 8 ∨ v = 9 ∨ v = 10 ∨ v = 255) as Hcases by lia.
  repeat (destruct Hcases as [-> | Hcases]); subst;
    eexists; split; reflexivity.
Qed.

Lemma from_return_code_unrecognized (v : Z) (w : world) :
  ¬ (0x00 ≤ v ≤ 0x0A ∨ v = 0xFF) →
  from_return_code v w =
  Exits 1 (set_cerr
             (λ out, String.append out
                ("Invalid return_code from Rust-FFI: 0x" +:+ hex v +:+ nl))
             w).
Proof.
  intros Hout. unfold from_return_code.
  repeat match goal with
         | |- context [match ?p with _ => _ end] => is_var p; destruct p
         end;
    try reflexivity;
    exfalso; apply Hout; lia.
Qed.

(** C3.  [from(message_type)] and [from(return_code)]: a recognized numeric
    value is handed on as the vsomeip enumerator of the same numeric value and
    nothing else happens; for any other value the function writes its
    diagnostic to [std::cerr] and ends the process with [exit(1)], returning
    no enumerator at all. *)
Theorem from_recognized_or_exit (v : Z) (w : world) :
  (v ∈ message_type_values →
     ∃ e, from_message_type v w = Returns e w ∧
          vsomeip.message_type_value e = v) ∧
  (v ∉ message_type_values →
     from_message_type v w =
     Exits 1 (set_cerr
                (λ out, String.append out
                   ("Invalid message_type from Rust-FFI: 0x" +:+ hex v +:+ nl))
                w)) ∧
  (0x00 ≤ v ≤ 0x0A ∨ v = 0xFF →
     ∃ e, from_return_code v w = Returns e w ∧
          vsomeip.return_code_value e = v) ∧
  (¬ (0x00 ≤ v ≤ 0x0A ∨ v = 0xFF) →
     from_return_code v w =
     Exits 1 (set_cerr
                (λ out, String.append out
                   ("Invalid return_code from Rust-FFI: 0x" +:+ hex v +:+ nl))
                w)).
Proof.
  split; [| split; [| split]].
  - apply from_message_type_recognized.
  - apply from_message_type_unrecognized.
  - apply from_return_code_recognized.
  - apply from_return_code_unrecognized.
Qed.

(** On both send paths of the boundary the return code is translated before
    the facade is called: an unrecognized value ends the process with nothing
    sent. *)
Lemma application_send_unrecognized_return_code (app : option nat)
    (this : application)
    (service instance method client session major : Z) (reliable : bool)
    (rc : Z) (data : list Byte.byte) (data_len : Z) (w : world) :
  handle app w = Returns this w →
  ¬ (0x00 ≤ rc ≤ 0x0A ∨ rc = 0xFF) →
  ∃ w',
    application_send_response app service instance method client session major
      reliable rc data data_len w = Exits 1 w' ∧
    application_send_error app service instance method client session major
      reliable rc w = Exits 1 w' ∧
    calls w' = calls w ∧ messages w' = messages w.
Proof.
  intros Hh Hrc. unfold application_send_response, application_send_error.
  rewrite !(bind_Returns _ _ w this w Hh).
  rewrite !(bind_Exits _ _ w _ _ (from_return_code_unrecognized rc w Hrc)).
  eexists. split; [reflexivity |]. split; [reflexivity |]. by destruct w.
Qed.

(** For a recognized return code the boundary calls the facade with the
    enumerator of that numeric value. *)
Lemma application_send_recognized_return_code (app : option nat)
    (this : application)
    (service instance method client session major : Z) (reliable : bool)
    (rc : Z) (data : list Byte.byte) (data_len : Z) (w : world) :
  handle app w = Returns this w →
  0x00 ≤ rc ≤ 0x0A ∨ rc = 0xFF →
  ∃ e,
    vsomeip.return_code_value e = rc ∧
    application_send_response app service instance method client session major
      reliable rc data data_len w
    = send_response this service instance method client session major reliable
        e data data_len w ∧
    application_send_error app service instance method client session major
      reliable rc w
    = send_error this service instance method client session major reliable
        e w.
Proof.
  intros Hh Hrc.
  destruct (from_return_code_recognized rc w Hrc) as (e & He & Hv).
  exists e. split; [exact Hv |].
  unfold application_send_response, application_send_error.
  rewrite !(bind_Returns _ _ w this w Hh).
  by rewrite !(bind_Returns _ _ w e w He).
Qed.
End translation.

(** Unfold the monad and run the code as far as it goes, reading and writing
    the cell that was allocated last. *)
Ltac run :=
  unfold bind, ret, modify, gets, emit, deref, assert, cerr_write;
  repeat first
    [ rewrite cell_read_new
    | rewrite cell_write_new
    | progress cbn ].

(** ** Messages built by the facade *)

Section messages.
Context `{Vsomeip}.
Local Arguments cell_read : simpl never.
Local Arguments cell_write : simpl never.

(** C1.  [application::send_response] hands exactly one message to
    [vsomeip::application::send]: the message the runtime made, with service,
    instance, method, client, session and interface version set to the
    arguments, message type [MT_RESPONSE] (0x80), the given return code, and
    the payload the runtime built from the given bytes. *)
Theorem send_response_sends (this : application) (rt : vsomeip.runtime)
    (app : vsomeip.application) (m0 : vsomeip.message)
    (service instance method client session major : Z) (reliable : bool)
    (rc : vsomeip.return_code_e) (data : list Byte.byte) (data_len : Z)
    (w : world) :
  _runtime this = Some rt →
  _application this = Some app →
  vs_create_message reliable = Some m0 →
  ∃ w',
    send_response this service instance method client session major reliable
      rc data data_len w = Returns tt w' ∧
    vsomeip.message_type_value vsomeip.MT_RESPONSE = 0x80 ∧
    calls w' = calls w ++
      [app_send app
         {| vsomeip.get_service := service;
            vsomeip.get_instance := instance;
            vsomeip.get_method := method;
            vsomeip.get_client := client;
            vsomeip.get_session := session;
            vsomeip.get_protocol_version := vsomeip.get_protocol_version m0;
            vsomeip.get_interface_version := major;
            vsomeip.get_message_type := vsomeip.MT_RESPONSE;
            vsomeip.get_return_code := rc;
            vsomeip.is_initial := vsomeip.is_initial m0;
            vsomeip.is_reliable := vsomeip.is_reliable m0;
            vsomeip.get_payload := vs_create_payload data data_len |}].
Proof.
  intros Hrt Happ Hm0.
  unfold send_response, send, msg_set, msg_get, new_message, cell_new.
  rewrite Hrt, Happ, Hm0. destruct w. run.
  eexists. split; [reflexivity | split; reflexivity].
Qed.

(** C5.  [application::send_error] hands exactly one message to
    [vsomeip::application::send]: client and session are the given ones, the
    message type is [MT_RESPONSE] (0x80, not [MT_ERROR]), the return code is
    the given one, and no payload is attached: the payload pointer is the one
    the runtime's new message came with, which carries no bytes. *)
Theorem send_error_sends (this : application) (rt : vsomeip.runtime)
    (app : vsomeip.application) (m0 : vsomeip.message)
    (service instance method client session major : Z) (reliable : bool)
    (rc : vsomeip.return_code_e) (w : world) :
  _runtime this = Some rt →
  _application this = Some app →
  vs_create_message reliable = Some m0 →
  no_payload_bytes (vsomeip.get_payload m0) →
  ∃ w' sent,
    send_error this service instance method client session major reliable rc w
      = Returns tt w' ∧
    calls w' = calls w ++ [app_send app sent] ∧
    sent =
      {| vsomeip.get_service := service;
         vsomeip.get_instance := instance;
         vsomeip.get_method := method;
         vsomeip.get_client := client;
         vsomeip.get_session := session;
         vsomeip.get_protocol_version := vsomeip.get_protocol_version m0;
         vsomeip.get_interface_version := major;
         vsomeip.get_message_type := vsomeip.MT_RESPONSE;
         vsomeip.get_return_code := rc;
         vsomeip.is_initial := vsomeip.is_initial m0;
         vsomeip.is_reliable := vsomeip.is_reliable m0;
         vsomeip.get_payload := vsomeip.get_payload m0 |} ∧
    vsomeip.message_type_value (vsomeip.get_message_type sent) = 0x80 ∧
    vsomeip.get_message_type sent ≠ vsomeip.MT_ERROR ∧
    no_payload_bytes (vsomeip.get_payload sent).
Proof.
  intros Hrt Happ Hm0 Hempty.
  unfold send_error, send, msg_set, msg_get, new_message, cell_new.
  rewrite Hrt, Happ, Hm0. destruct w. run.
  do 2 eexists. split; [reflexivity |].
  split; [reflexivity |]. split; [reflexivity |]. cbn.
  split; [reflexivity |]. split; [discriminate | exact Hempty].
Qed.

(** C2.  [application::send_request] hands exactly one message to
    [vsomeip::application::send]: the request the runtime made, with service,
    instance, method, interface version and payload set from the arguments
    and with client and session as the runtime made them (the facade writes
    neither); what it returns is the session id found in that same message
    object after [send] has had it. *)
Theorem send_request_returns_session (this : application)
    (rt : vsomeip.runtime) (app : vsomeip.application) (m0 : vsomeip.message)
    (service instance method major : Z) (data : list Byte.byte)
    (data_len : Z) (reliable : bool) (w : world) :
  _runtime this = Some rt →
  _application this = Some app →
  vs_create_request reliable = Some m0 →
  let sent :=
    {| vsomeip.get_service := service;
       vsomeip.get_instance := instance;
       vsomeip.get_method := method;
       vsomeip.get_client := vsomeip.get_client m0;
       vsomeip.get_session := vsomeip.get_session m0;
       vsomeip.get_protocol_version := vsomeip.get_protocol_version m0;
       vsomeip.get_interface_version := major;
       vsomeip.get_message_type := vsomeip.get_message_type m0;
       vsomeip.get_return_code := vsomeip.get_return_code m0;
       vsomeip.is_initial := vsomeip.is_initial m0;
       vsomeip.is_reliable := vsomeip.is_reliable m0;
       vsomeip.get_payload := vs_create_payload data data_len |} in
  ∃ w',
    send_request this service instance method major data data_len reliable w
      = Returns (vsomeip.get_session (vs_send (vs w) app sent)) w' ∧
    calls w' = calls w ++ [app_send app sent] ∧
    cell_read (List.length (messages w)) (messages w')
      = Some (vs_send (vs w) app sent).
Proof.
  intros Hrt Happ Hm0 sent.
  unfold send_request, send, msg_set, msg_get, new_message, cell_new.
  rewrite Hrt, Happ, Hm0. destruct w. run.
  eexists. split; [reflexivity |]. split; [reflexivity |].
  cbn. by rewrite !cell_write_new, cell_read_new.
Qed.
End messages.

(** ** Lifecycle of the facade object *)

Section lifecycle.
Context `{Vsomeip}.
Local Arguments cell_read : simpl never.
Local Arguments cell_write : simpl never.

(** An object made by [application::application] and then started has both
    pointers set and a joinable dispatch thread. *)
Lemma start_after_ctor (rt : vsomeip.runtime) (app : vsomeip.application)
    (w : world) :
  start (application_ctor (Some rt) (Some app)) w =
  Returns {| _runtime := Some rt; _application := Some app;
             _dispatch_thread := {| joinable := true |};
             _state_connected := false |}
    (set_vs (λ s, vs_step s (thread_start app))
       (set_calls (λ l, l ++ [thread_start app]) w)).
Proof. reflexivity. Qed.

(** C4.  With the runtime at hand, [create_application(name)] returns
    [nullptr] when the runtime makes no session for [name], and when it makes
    one whose [init()] fails; in both cases no facade object has been made
    (no cell is allocated, the dispatch thread is not started).  When both
    succeed it returns a non-null handle to a new cell that holds a facade
    object for the session, with its dispatch thread started. *)
Theorem create_application_null_or_started (name : string)
    (rt : vsomeip.runtime) (w : world) :
  vs_runtime_get (vs w) = Some rt →
  (∀ s, vs_create_application (vs w) name = (s, None) →
     ∃ w', create_application name w = Returns None w' ∧
           application_cells w' = application_cells w ∧
           calls w' = calls w) ∧
  (∀ s app s',
     vs_create_application (vs w) name = (s, Some app) →
     vs_init s app = (s', false) →
     ∃ w', create_application name w = Returns None w' ∧
           application_cells w' = application_cells w ∧
           calls w' = calls w) ∧
  (∀ s app s',
     vs_create_application (vs w) name = (s, Some app) →
     vs_init s app = (s', true) →
     ∃ w', create_application name w
             = Returns (Some (List.length (application_cells w))) w' ∧
           application_cells w' = application_cells w ++
             [Some (Some {| _runtime := Some rt; _application := Some app;
                            _dispatch_thread := {| joinable := true |};
                            _state_connected := false |})] ∧
           calls w' = calls w ++ [thread_start app]).
Proof.
  intros Hrt. unfold create_application, create, start, cell_new.
  destruct w as [s0 cs err ms acs pcs mcs]. cbn in Hrt.
  repeat split.
  - intros s Hc. cbn in Hc. run. rewrite Hrt; cbn. rewrite Hc; cbn.
    eexists. split; [reflexivity | split; reflexivity].
  - intros s app s' Hc Hi. cbn in Hc. run. rewrite Hrt; cbn.
    rewrite Hc; cbn. rewrite Hi; cbn.
    eexists. split; [reflexivity | split; reflexivity].
  - intros s app s' Hc Hi. cbn in Hc. run. rewrite Hrt; cbn.
    rewrite Hc; cbn. rewrite Hi; cbn.
    eexists. split; [reflexivity | split; reflexivity].
Qed.

(** C8.  [application::stop] on an object with a session: a second call
    right after the first returns the very same object state, with a thread
    that is not joinable; both calls return normally.  The thread is joined
    in the first call only, and only if it was joinable; on an object whose
    thread was never started no join happens at all and the object is left as
    it was.  Each call signals [vsomeip::application::stop] once. *)
Theorem stop_idempotent (this : application) (app : vsomeip.application)
    (w : world) :
  _application this = Some app →
  ∃ this1 w1 w2,
    stop this w = Returns this1 w1 ∧
    stop this1 w1 = Returns this1 w2 ∧
    joinable (_dispatch_thread this1) = false ∧
    calls w1 = calls w ++
      app_stop app ::
      (if joinable (_dispatch_thread this) then [thread_join] else []) ∧
    calls w2 = calls w1 ++ [app_stop app] ∧
    (joinable (_dispatch_thread this) = false → this1 = this).
Proof.
  intros Happ. destruct this as [r a [j] c]. cbn in Happ. subst a.
  unfold stop. destruct w as [s0 cs err ms acs pcs mcs].
  destruct j; run.
  - do 3 eexists. split; [reflexivity |]. split; [reflexivity |].
    split; [reflexivity |]. split; [cbn; by rewrite <- app_assoc |].
    split; [reflexivity | discriminate].
  - do 3 eexists. split; [reflexivity |]. split; [reflexivity |].
    split; [reflexivity |]. split; [reflexivity |].
    split; [reflexivity | reflexivity].
Qed.

(** What the destructor leaves behind, for an object with a session and a
    runtime. *)
Lemma application_dtor_runs (this : application) (rt : vsomeip.runtime)
    (app : vsomeip.application) (w : world) :
  _application this = Some app →
  _runtime this = Some rt →
  ∃ w',
    application_dtor this w
      = Returns {| _runtime := None; _application := None;
                   _dispatch_thread := {| joinable := false |};
                   _state_connected := _state_connected this |} w' ∧
    calls w' = calls w ++
      [app_clear_all_handler app; app_stop app] ++
      (if joinable (_dispatch_thread this) then [thread_join] else []) ++
      [rt_remove_application (vsomeip.get_name app)] ∧
    application_cells w' = application_cells w.
Proof.
  intros Happ Hrt. destruct this as [r a [j] c]. cbn in Happ, Hrt. subst.
  unfold application_dtor, stop. destruct w as [s0 cs err ms acs pcs mcs].
  destruct j; run; eexists; (split; [reflexivity |]); cbn;
    rewrite <- !app_assoc; split; reflexivity.
Qed.

(** C7.  [application::~application] on an object with a session and a
    runtime does, in this order and nothing else: [clear_all_handler] on the
    session, [stop] (the signal to the session, then the join of the dispatch
    thread when it is joinable, as it is for every started object), and
    [remove_application] with the session's name; it ends with both pointers
    reset. *)
Theorem destructor_sequence (this : application) (rt : vsomeip.runtime)
    (app : vsomeip.application) (w : world) :
  _application this = Some app →
  _runtime this = Some rt →
  ∃ this' w',
    application_dtor this w = Returns this' w' ∧
    calls w' = calls w ++
      [app_clear_all_handler app; app_stop app] ++
      (if joinable (_dispatch_thread this) then [thread_join] else []) ++
      [rt_remove_application (vsomeip.get_name app)] ∧
    (joinable (_dispatch_thread this) = true →
     calls w' = calls w ++
       [app_clear_all_handler app; app_stop app; thread_join;
        rt_remove_application (vsomeip.get_name app)]) ∧
    _application this' = None ∧
    _runtime this' = None ∧
    joinable (_dispatch_thread this') = false.
Proof.
  intros Happ Hrt.
  destruct (application_dtor_runs this rt app w Happ Hrt)
    as (w' & Hrun & Hcalls & _).
  eexists _, w'. split; [exact Hrun |]. split; [exact Hcalls |].
  split; [| by cbn]. intros Hj. by rewrite Hcalls, Hj.
Qed.

(** [application_delete] on a live handle runs the destructor and releases
    the cell. *)
Lemma application_delete_live (p : nat) (this : application)
    (rt : vsomeip.runtime) (app : vsomeip.application) (w : world) :
  cell_read p (application_cells w) = Some (Some this) →
  _application this = Some app →
  _runtime this = Some rt →
  ∃ w',
    application_delete (Some p) w = Returns tt w' ∧
    cell_read p (application_cells w') = None ∧
    calls w' = calls w ++
      [app_clear_all_handler app; app_stop app] ++
      (if joinable (_dispatch_thread this) then [thread_join] else []) ++
      [rt_remove_application (vsomeip.get_name app)].
Proof.
  intros Hcell Happ Hrt.
  destruct (application_dtor_runs this rt app w Happ Hrt)
    as (w' & Hd & Hcalls & _).
  unfold application_delete.
  rewrite (bind_Returns _ _ w (Some this) w) by (by unfold deref; rewrite Hcell).
  rewrite (bind_Returns _ _ w _ w' Hd).
  eexists. split; [reflexivity |]. split.
  - destruct w'. cbn. unfold cell_delete, cell_read.
    destruct (decide (p < List.length application_cells0)%nat).
    + by rewrite list_lookup_insert_eq.
    + rewrite list_insert_ge by lia. by rewrite lookup_ge_None_2 by lia.
  - destruct w'. exact Hcalls.
Qed.

(** C9.  [application_delete], [payload_destroy] and [message_destroy] on a
    null handle return normally and leave the whole process state as it was:
    no cell is released, no destructor runs, nothing is called. *)
Theorem destroy_null_is_noop (w : world) :
  application_delete None w = Returns tt w ∧
  payload_destroy None w = Returns tt w ∧
  message_destroy None w = Returns tt w.
Proof. repeat split. Qed.
End lifecycle.

(** ** Payload handles *)

Section payloads.
Context `{Vsomeip} `{!VsomeipPayloads}.
Local Arguments cell_read : simpl never.
Local Arguments cell_write : simpl never.

Lemma handle_keeps_world (app : option nat) (this : application)
    (w w' : world) :
  handle app w = Returns this w' → w' = w.
Proof.
  unfold handle. destruct app as [p |]; [| discriminate]. run.
  destruct (cell_read p (application_cells w)) as [[a |] |]; cbn;
    intros Heq; by inversion Heq.
Qed.

Lemma payload_get_info_new (pl : vsomeip.payload) (w : world) :
  payload_get_info (Some (List.length (payload_cells w)))
    (set_payload_cells (λ h, h ++ [Some (Some pl)]) w)
  = Returns {| data := Some (vsomeip.get_data pl);
               len := vsomeip.get_length pl mod 2 ^ 32 |}
      (set_payload_cells (λ h, h ++ [Some (Some pl)]) w).
Proof.
  unfold payload_get_info. destruct w. by run.
Qed.

(** C6.  Through a valid application handle: [payload_get_info] on the
    handle [application_payload_create] returns for a buffer [B] (of a
    length a [uint32_t] holds) gives a pointer to bytes equal to [B] and
    [len] equal to the length of [B], so the view is [B]; on the handle
    [payload_create_empty] returns it gives [len] 0; and on any non-null
    handle whose cell holds a null payload pointer it gives
    [{nullptr, 0}]. *)
Theorem payload_get_info_view (app : option nat) (this : application)
    (rt : vsomeip.runtime) (w : world) :
  handle app w = Returns this w →
  _runtime this = Some rt →
  (∀ B : list Byte.byte,
     Z.of_nat (List.length B) < 2 ^ 32 →
     ∃ p w' info,
       application_payload_create app B (Z.of_nat (List.length B)) w
         = Returns (Some p) w' ∧
       payload_get_info (Some p) w' = Returns info w' ∧
       data info = Some B ∧
       len info = Z.of_nat (List.length B) ∧
       view info = B) ∧
  (∃ p w' info,
     payload_create_empty app w = Returns (Some p) w' ∧
     payload_get_info (Some p) w' = Returns info w' ∧
     len info = 0 ∧
     view info = []) ∧
  (∀ (p : nat) (w0 : world),
     cell_read p (payload_cells w0) = Some None →
     payload_get_info (Some p) w0 = Returns {| data := None; len := 0 |} w0).
Proof.
  intros Hh Hrt. split; [| split].
  - intros B HB.
    destruct (create_payload_copies B (Z.of_nat (List.length B)))
      as (pl & Hpl & Hdata).
    rewrite Nat2Z.id, firstn_all in Hdata.
    exists (List.length (payload_cells w)),
           (set_payload_cells (λ h, h ++ [Some (Some pl)]) w),
           {| data := Some (vsomeip.get_data pl);
              len := vsomeip.get_length pl mod 2 ^ 32 |}.
    split.
    { unfold application_payload_create.
      rewrite (bind_Returns _ _ w this w Hh).
      unfold create_payload. rewrite Hrt, Hpl. by destruct w. }
    split; [apply payload_get_info_new |].
    unfold view, vsomeip.get_length. cbn. rewrite Hdata.
    rewrite Z.mod_small by lia.
    split; [reflexivity |]. split; [reflexivity |].
    by rewrite Nat2Z.id, firstn_all.
  - destruct create_payload_empty_is_empty as (pl & Hpl & Hdata).
    exists (List.length (payload_cells w)),
           (set_payload_cells (λ h, h ++ [Some (Some pl)]) w),
           {| data := Some (vsomeip.get_data pl);
              len := vsomeip.get_length pl mod 2 ^ 32 |}.
    split.
    { unfold payload_create_empty.
      rewrite (bind_Returns _ _ w this w Hh).
      unfold create_payload_empty. rewrite Hrt, Hpl. by destruct w. }
    split; [apply payload_get_info_new |].
    unfold view, vsomeip.get_length. cbn. by rewrite Hdata.
  - intros p w0 Hcell. unfold payload_get_info. run. by rewrite Hcell.
Qed.
End payloads.

(** ** Eventgroup arrays *)

Section eventgroups.
Context `{Vsomeip}.
Local Arguments cell_read : simpl never.
Local Arguments cell_write : simpl never.

(** The loop reads [count] entries from index [i] on and adds each to the
    set. *)
Lemma emplace_from_in_range (event_groups : list Z) (count i : nat)
    (s : gset Z) (w : world) :
  (i + count ≤ List.length event_groups)%nat →
  emplace_from event_groups i count s w
  = Returns (list_to_set (take count (drop i event_groups)) ∪ s) w.
Proof.
  revert i s. induction count as [| count IH]; intros i s Hlen.
  - cbn. unfold ret. rewrite take_0. cbn. by rewrite (left_id_L ∅ (∪)).
  - cbn [emplace_from].
    destruct (lookup_lt_is_Some_2 event_groups i ltac:(lia)) as [g Hg].
    rewrite (bind_Returns _ _ w g w) by (by rewrite Hg).
    rewrite IH by lia.
    rewrite (drop_S _ _ _ Hg). cbn.
    by rewrite (assoc_L (∪)), (comm_L (∪) _ {[g]}).
Qed.


Lemma event_groups_to_set_whole (event_groups : list Z) (w : world) :
  Z.of_nat (List.length event_groups) < 2 ^ 31 →
  event_groups_to_set (Some event_groups)
    (Z.of_nat (List.length event_groups)) w
  = Returns (list_to_set event_groups) w.
Proof.
  intros Hlen. unfold event_groups_to_set. run.
  destruct (Z.ltb_spec (Z.of_nat (List.length event_groups)) (2 ^ 31));
    [| lia].
  cbn. rewrite emplace_from_in_range by lia.
  rewrite Nat2Z.id, drop_0, firstn_all. by rewrite (right_id_L ∅ (∪)).
Qed.

(** C10.  Through a valid application handle, [application_offer_event] and
    [application_request_event] pass on the set of the eventgroup ids in the
    caller's array: two arrays with the same members, whatever the order and
    however often each id is repeated, lead to the same single call into the
    session and to the same outcome. *)
Theorem event_registration_set_invariant (app : option nat)
    (this : application) (session : vsomeip.application)
    (groups1 groups2 : list Z) (service instance notifier : Z)
    (is_field : bool) (cycle : Z)
    (change_resets_cycle update_on_change : bool) (w : world) :
  handle app w = Returns this w →
  _application this = Some session →
  Z.of_nat (List.length groups1) < 2 ^ 31 →
  Z.of_nat (List.length groups2) < 2 ^ 31 →
  (∀ g, g ∈ groups1 ↔ g ∈ groups2) →
  let type := if is_field then vsomeip.ET_FIELD else vsomeip.ET_EVENT in
  (∃ w',
     application_offer_event app service instance notifier (Some groups1)
       (Z.of_nat (List.length groups1)) is_field cycle change_resets_cycle
       update_on_change w = Returns tt w' ∧
     application_offer_event app service instance notifier (Some groups2)
       (Z.of_nat (List.length groups2)) is_field cycle change_resets_cycle
       update_on_change w = Returns tt w' ∧
     calls w' = calls w ++
       [app_offer_event session service instance notifier
          (list_to_set groups1) type cycle change_resets_cycle
          update_on_change vsomeip.RT_UNKNOWN]) ∧
  (∃ w',
     application_request_event app service instance notifier (Some groups1)
       (Z.of_nat (List.length groups1)) is_field w = Returns tt w' ∧
     application_request_event app service instance notifier (Some groups2)
       (Z.of_nat (List.length groups2)) is_field w = Returns tt w' ∧
     calls w' = calls w ++
       [app_request_event session service instance notifier
          (list_to_set groups1) type vsomeip.RT_UNKNOWN]).
Proof.
  intros Hh Happ Hlen1 Hlen2 Hsame type.
  assert (list_to_set groups2 = (list_to_set groups1 : gset Z)) as Hset.
  { apply set_eq. intros g. rewrite !elem_of_list_to_set. symmetry. apply Hsame. }
  split.
  - unfold application_offer_event.
    rewrite !(bind_Returns _ _ w this w Hh).
    rewrite (bind_Returns _ _ w _ w (event_groups_to_set_whole groups1 w Hlen1)).
    rewrite (bind_Returns _ _ w _ w (event_groups_to_set_whole groups2 w Hlen2)).
    rewrite Hset. unfold offer_event. rewrite Happ. destruct w. run.
    eexists. split; [reflexivity | split; reflexivity].
  - unfold application_request_event.
    rewrite !(bind_Returns _ _ w this w Hh).
    rewrite (bind_Returns _ _ w _ w (event_groups_to_set_whole groups1 w Hlen1)).
    rewrite (bind_Returns _ _ w _ w (event_groups_to_set_whole groups2 w Hlen2)).
    rewrite Hset. unfold request_event. rewrite Happ. destruct w. run.
    eexists. split; [reflexivity | split; reflexivity].
Qed.
End eventgroups.

(** ** The code on concrete inputs *)

(** The stand-in library meets what is assumed of vsomeip's payloads. *)
Lemma stub_payloads (create_ok init_ok : bool) :
  @VsomeipPayloads (stub create_ok init_ok).
Proof. split; intros; eexists; split; reflexivity. Qed.

(** The scenario of the spec: a response for client 0x07, session 0x0042 with
    return code unknown-method. *)
Lemma send_response_sends_witness :
  ∃ w',
    @send_response (stub true true) (started A1) 0x1234 0x0001 0x0421 0x07
      0x0042 1 true vsomeip.E_UNKNOWN_METHOD [Byte.x68; Byte.x69] 2
      (@boot (stub true true) 0) = Returns tt w' ∧
    calls w' =
      [app_send A1
         {| vsomeip.get_service := 0x1234;
            vsomeip.get_instance := 0x0001;
            vsomeip.get_method := 0x0421;
            vsomeip.get_client := 0x07;
            vsomeip.get_session := 0x0042;
            vsomeip.get_protocol_version := 1;
            vsomeip.get_interface_version := 1;
            vsomeip.get_message_type := vsomeip.MT_RESPONSE;
            vsomeip.get_return_code := vsomeip.E_UNKNOWN_METHOD;
            vsomeip.is_initial := false;
            vsomeip.is_reliable := true;
            vsomeip.get_payload :=
              Some {| vsomeip.get_data := [Byte.x68; Byte.x69] |} |}].
Proof.
  destruct (@send_response_sends (stub true true) (started A1)
              vsomeip.the_runtime A1 (stub_message true) 0x1234 0x0001 0x0421
              0x07 0x0042 1 true vsomeip.E_UNKNOWN_METHOD [Byte.x68; Byte.x69]
              2 (@boot (stub true true) 0) eq_refl eq_refl eq_refl)
    as (w' & Hrun & _ & Hcalls).
  exists w'. split; [exact Hrun | exact Hcalls].
Defined.

Lemma send_error_sends_witness :
  ∃ w',
    @send_error (stub true true) (started A1) 0x1234 0x0001 0x0421 0x07 0x0042
      1 false vsomeip.E_NOT_READY (@boot (stub true true) 0) = Returns tt w' ∧
    calls w' =
      [app_send A1
         {| vsomeip.get_service := 0x1234;
            vsomeip.get_instance := 0x0001;
            vsomeip.get_method := 0x0421;
            vsomeip.get_client := 0x07;
            vsomeip.get_session := 0x0042;
            vsomeip.get_protocol_version := 1;
            vsomeip.get_interface_version := 1;
            vsomeip.get_message_type := vsomeip.MT_RESPONSE;
            vsomeip.get_return_code := vsomeip.E_NOT_READY;
            vsomeip.is_initial := false;
            vsomeip.is_reliable := false;
            vsomeip.get_payload := Some {| vsomeip.get_data := [] |} |}].
Proof.
  destruct (@send_error_sends (stub true true) (started A1)
              vsomeip.the_runtime A1 (stub_message false) 0x1234 0x0001 0x0421
              0x07 0x0042 1 false vsomeip.E_NOT_READY
              (@boot (stub true true) 0) eq_refl eq_refl eq_refl eq_refl)
    as (w' & sent & Hrun & Hcalls & -> & _).
  exists w'. split; [exact Hrun | exact Hcalls].
Defined.

(** The stand-in library has handed out 41 session ids; the request gets 42. *)
Lemma send_request_returns_session_witness :
  ∃ w',
    @send_request (stub true true) (started A1) 0x1234 0x0001 0x0421 1
      [Byte.x68; Byte.x69] 2 true (@boot (stub true true) 41)
    = Returns 42 w' ∧
    calls w' =
      [app_send A1
         {| vsomeip.get_service := 0x1234;
            vsomeip.get_instance := 0x0001;
            vsomeip.get_method := 0x0421;
            vsomeip.get_client := 0;
            vsomeip.get_session := 0;
            vsomeip.get_protocol_version := 1;
            vsomeip.get_interface_version := 1;
            vsomeip.get_message_type := vsomeip.MT_REQUEST;
            vsomeip.get_return_code := vsomeip.E_OK;
            vsomeip.is_initial := false;
            vsomeip.is_reliable := true;
            vsomeip.get_payload :=
              Some {| vsomeip.get_data := [Byte.x68; Byte.x69] |} |}].
Proof.
  destruct (@send_request_returns_session (stub true true) (started A1)
              vsomeip.the_runtime A1
              (vsomeip.set_message_type vsomeip.MT_REQUEST (stub_message true))
              0x1234 0x0001 0x0421 1 [Byte.x68; Byte.x69] 2 true
              (@boot (stub true true) 41) eq_refl eq_refl eq_refl)
    as (w' & Hrun & Hcalls & _).
  exists w'. split; [exact Hrun | exact Hcalls].
Defined.

Lemma from_recognized_or_exit_witness :
  (∃ e, @from_message_type (stub true true) 0x80 (@boot (stub true true) 0)
          = Returns e (@boot (stub true true) 0) ∧ vsomeip.message_type_value e = 0x80) ∧
  @from_message_type (stub true true) 0x03 (@boot (stub true true) 0)
    = Exits 1 (set_cerr (λ _, "Invalid message_type from Rust-FFI: 0x3" +:+ nl)
                 (@boot (stub true true) 0)) ∧
  (∃ e, @from_return_code (stub true true) 0x03 (@boot (stub true true) 0)
          = Returns e (@boot (stub true true) 0) ∧ vsomeip.return_code_value e = 0x03) ∧
  @from_return_code (stub true true) 0x0B (@boot (stub true true) 0)
    = Exits 1 (set_cerr (λ _, "Invalid return_code from Rust-FFI: 0xb" +:+ nl)
                 (@boot (stub true true) 0)).
Proof.
  split; [| split; [| split]].
  - apply (@from_recognized_or_exit (stub true true) 0x80 (@boot (stub true true) 0)).
    unfold message_type_values. do 6 apply list_elem_of_further.
    apply list_elem_of_here.
  - apply (@from_recognized_or_exit (stub true true) 0x03 (@boot (stub true true) 0)).
    unfold message_type_values. intros Hin.
    repeat (apply elem_of_cons in Hin as [Hin | Hin]; [discriminate Hin |]).
    by apply elem_of_nil in Hin.
  - apply (@from_recognized_or_exit (stub true true) 0x03 (@boot (stub true true) 0)). lia.
  - apply (@from_recognized_or_exit (stub true true) 0x0B (@boot (stub true true) 0)). lia.
Defined.

(** Creation fails, initialization fails, both succeed. *)
Lemma create_application_null_or_started_witness :
  (∃ w', @create_application (stub false true) "A1" (@boot (stub false true) 0)
           = Returns None w' ∧
         application_cells w' = [] ∧ calls w' = []) ∧
  (∃ w', @create_application (stub true false) "A1" (@boot (stub true false) 0)
           = Returns None w' ∧
         application_cells w' = [] ∧ calls w' = []) ∧
  (∃ w', @create_application (stub true true) "A1" (@boot (stub true true) 0)
           = Returns (Some 0%nat) w' ∧
         application_cells w' = [Some (Some (started A1))] ∧
         calls w' = [thread_start A1]).
Proof.
  split; [| split].
  - destruct (@create_application_null_or_started (stub false true) "A1"
                vsomeip.the_runtime (@boot (stub false true) 0) eq_refl)
      as (Hnone & _ & _).
    exact (Hnone 0 eq_refl).
  - destruct (@create_application_null_or_started (stub true false) "A1"
                vsomeip.the_runtime (@boot (stub true false) 0) eq_refl)
      as (_ & Hinit & _).
    exact (Hinit 0 A1 0 eq_refl eq_refl).
  - destruct (@create_application_null_or_started (stub true true) "A1"
                vsomeip.the_runtime (@boot (stub true true) 0) eq_refl)
      as (_ & _ & Hok).
    exact (Hok 0 A1 0 eq_refl eq_refl).
Defined.

Lemma payload_get_info_view_witness :
  (∃ p w' info,
     @application_payload_create (stub true true) (Some 0%nat)
       [Byte.x68; Byte.x69; Byte.x21] 3 (@running (stub true true) 0)
       = Returns (Some p) w' ∧
     payload_get_info (Some p) w' = Returns info w' ∧
     data info = Some [Byte.x68; Byte.x69; Byte.x21] ∧
     len info = 3 ∧
     view info = [Byte.x68; Byte.x69; Byte.x21]) ∧
  (∃ p w' info,
     @payload_create_empty (stub true true) (Some 0%nat)
       (@running (stub true true) 0) = Returns (Some p) w' ∧
     payload_get_info (Some p) w' = Returns info w' ∧
     len info = 0 ∧ view info = []).
Proof.
  destruct (@payload_get_info_view (stub true true) (stub_payloads true true)
              (Some 0%nat) (started A1) vsomeip.the_runtime
              (@running (stub true true) 0) eq_refl eq_refl)
    as (Hbytes & Hempty & _).
  split; [| exact Hempty].
  apply (Hbytes [Byte.x68; Byte.x69; Byte.x21]). cbn. lia.
Defined.

Lemma destructor_sequence_witness :
  ∃ this' w',
    @application_dtor (stub true true) (started A1) (@running (stub true true) 0)
      = Returns this' w' ∧
    calls w' =
      [thread_start A1; app_clear_all_handler A1; app_stop A1; thread_join;
       rt_remove_application "A1"] ∧
    _application this' = None ∧ _runtime this' = None.
Proof.
  destruct (@destructor_sequence (stub true true) (started A1)
              vsomeip.the_runtime A1 (@running (stub true true) 0)
              eq_refl eq_refl)
    as (this' & w' & Hrun & _ & Hcalls & Happ & Hrt & _).
  exists this', w'. split; [exact Hrun |].
  split; [exact (Hcalls eq_refl) |]. split; [exact Happ | exact Hrt].
Defined.

(** Once on a started object, once on one that was only constructed. *)
Lemma stop_idempotent_witness :
  (∃ this1 w1 w2,
     @stop (stub true true) (started A1) (@running (stub true true) 0)
       = Returns this1 w1 ∧
     stop this1 w1 = Returns this1 w2 ∧
     joinable (_dispatch_thread this1) = false ∧
     calls w1 = [thread_start A1; app_stop A1; thread_join] ∧
     calls w2 = [thread_start A1; app_stop A1; thread_join; app_stop A1]) ∧
  (∃ w1 w2,
     let this := application_ctor (Some vsomeip.the_runtime) (Some A1) in
     @stop (stub true true) this (@boot (stub true true) 0) = Returns this w1 ∧
     stop this w1 = Returns this w2 ∧
     calls w1 = [app_stop A1] ∧
     calls w2 = [app_stop A1; app_stop A1]).
Proof.
  split.
  - destruct (@stop_idempotent (stub true true) (started A1) A1
                (@running (stub true true) 0) eq_refl)
      as (this1 & w1 & w2 & H1 & H2 & Hj & Hc1 & Hc2 & _).
    exists this1, w1, w2. split; [exact H1 |]. split; [exact H2 |].
    split; [exact Hj |]. split; [exact Hc1 |].
    rewrite Hc2, Hc1. reflexivity.
  - destruct (@stop_idempotent (stub true true)
                (application_ctor (Some vsomeip.the_runtime) (Some A1)) A1
                (@boot (stub true true) 0) eq_refl)
      as (this1 & w1 & w2 & H1 & H2 & _ & Hc1 & Hc2 & Hsame).
    rewrite (Hsame eq_refl) in H1, H2.
    exists w1, w2. split; [exact H1 |]. split; [exact H2 |].
    split; [exact Hc1 |]. rewrite Hc2, Hc1. reflexivity.
Defined.

(** An array with a repeated id in one order, and the plain array in
    another. *)
Lemma event_registration_set_invariant_witness :
  (∃ w',
     @application_offer_event (stub true true) (Some 0%nat) 0x1234 0x0001
       0x8001 (Some [3; 1; 3; 2]) 4 true 100 false true
       (@running (stub true true) 0) = Returns tt w' ∧
     @application_offer_event (stub true true) (Some 0%nat) 0x1234 0x0001
       0x8001 (Some [1; 2; 3]) 3 true 100 false true
       (@running (stub true true) 0) = Returns tt w') ∧
  (∃ w',
     @application_request_event (stub true true) (Some 0%nat) 0x1234 0x0001
       0x8001 (Some [3; 1; 3; 2]) 4 true (@running (stub true true) 0)
       = Returns tt w' ∧
     @application_request_event (stub true true) (Some 0%nat) 0x1234 0x0001
       0x8001 (Some [1; 2; 3]) 3 true (@running (stub true true) 0)
       = Returns tt w').
Proof.
  assert (∀ g : Z, g ∈ [3; 1; 3; 2] ↔ g ∈ [1; 2; 3]) as Hsame.
  { intros g. rewrite !elem_of_cons, !elem_of_nil. tauto. }
  destruct (@event_registration_set_invariant (stub true true) (Some 0%nat)
              (started A1) A1 [3; 1; 3; 2] [1; 2; 3] 0x1234 0x0001 0x8001 true
              100 false true (@running (stub true true) 0) eq_refl eq_refl
              ltac:(cbn; lia) ltac:(cbn; lia) Hsame)
    as ((w1 & Ho1 & Ho2 & _) & (w2 & Hr1 & Hr2 & _)).
  split; [exists w1 | exists w2]; split; assumption.
Defined.

(** A whole life: the handle is created, deleted, and is dangling
    afterwards. *)
Example create_then_delete :
  ∃ w1 w2,
    @create_application (stub true true) "A1" (@boot (stub true true) 0)
      = Returns (Some 0%nat) w1 ∧
    application_delete (Some 0%nat) w1 = Returns tt w2 ∧
    calls w2 =
      [thread_start A1; app_clear_all_handler A1; app_stop A1; thread_join;
       rt_remove_application "A1"] ∧
    application_cells w2 = [None] ∧
    application_delete (Some 0%nat) w2 = Faults.
Proof. do 2 eexists. repeat split. Qed.

(** The diagnostics print the offending value as [std::hex] prints an
    [int]. *)
Example hex_values :
  hex 0x0B = "b"%string ∧ hex 0x1F4 = "1f4"%string ∧ hex 0 = "0"%string ∧
  hex (-1) = "ffffffff"%string.
Proof. repeat split. Qed.

(** A count larger than the caller's array makes the loop read past its end. *)
Example offer_event_count_too_large :
  @application_offer_event (stub true true) (Some 0%nat) 0x1234 0x0001 0x8001
    (Some [1; 2]) 3 false 0 false true (@running (stub true true) 0) = Faults.
Proof. reflexivity. Qed.

(** * More of the code *)

(** ** Cells and calls *)

Section frames.
Context `{Vsomeip}.

Lemma cell_read_Some_lt {T} (h : list (option T)) (p : nat) (v : T) :
  cell_read p h = Some v → (p < List.length h)%nat.
Proof.
  unfold cell_read. destruct (h !! p) as [o |] eqn:Hp; [| discriminate].
  intros _. by apply lookup_lt_Some in Hp.
Qed.

Lemma cell_read_fresh {T} (h : list (option T)) :
  cell_read (List.length h) h = None.
Proof. unfold cell_read. by rewrite lookup_ge_None_2. Qed.

Lemma cell_read_delete_eq {T} (h : list (option T)) (p : nat) :
  cell_read p (cell_delete p h) = None.
Proof.
  unfold cell_read, cell_delete.
  destruct (decide (p < List.length h)%nat).
  - by rewrite list_lookup_insert_eq.
  - rewrite list_insert_ge by lia. by rewrite lookup_ge_None_2 by lia.
Qed.

Lemma cell_read_delete_ne {T} (h : list (option T)) (p q : nat) :
  q ≠ p → cell_read q (cell_delete p h) = cell_read q h.
Proof.
  intros Hne. unfold cell_read, cell_delete.
  by rewrite list_lookup_insert_ne.
Qed.

Lemma emits_calls (l : list action) (w : world) :
  calls (emits l w) = calls w ++ l.
Proof.
  revert w. induction l as [| a l IH]; intros w; cbn.
  - by rewrite app_nil_r.
  - unfold emits in IH. rewrite IH. destruct w; cbn.
    by rewrite <- app_assoc.
Qed.



Lemma handle_live (p : nat) (this : application) (w : world) :
  cell_read p (application_cells w) = Some (Some this) →
  handle (Some p) w = Returns this w.
Proof. intros Hcell. unfold handle. run. by rewrite Hcell. Qed.


End frames.

(** ** Creating, naming and deleting an application *)

Section lifecycle_more.
Context `{Vsomeip}.
Local Arguments cell_read : simpl never.
Local Arguments cell_write : simpl never.


(** The name read through a handle that [create_application] returned is the
    name the runtime's session reports, whatever name was asked for. *)
Theorem created_application_name (asked : string) (rt : vsomeip.runtime)
    (s s' : vs_state) (app : vsomeip.application) (w : world) :
  vs_runtime_get (vs w) = Some rt →
  vs_create_application (vs w) asked = (s, Some app) →
  vs_init s app = (s', true) →
  ∃ p w',
    create_application asked w = Returns (Some p) w' ∧
    application_get_name (Some p) w' = Returns (vsomeip.get_name app) w'.
Proof.
  intros Hrt Hc Hi. unfold create_application, create, start, cell_new.
  destruct w as [s0 cs err ms acs pcs mcs]. cbn in Hrt, Hc.
  run. rewrite Hrt; cbn. rewrite Hc; cbn. rewrite Hi; cbn.
  do 2 eexists. split; [reflexivity |].
  unfold application_get_name, handle, name. by run.
Qed.


(** [application::start] and [application::stop] on an object with a session
    whose thread is not running: [start] makes the thread joinable, a second
    [start] then fails its [assert], [stop] joins and gives back the object as
    it was, and after that [start] succeeds again. *)
Theorem start_stop_cycle (this : application) (app : vsomeip.application)
    (w : world) :
  _application this = Some app →
  joinable (_dispatch_thread this) = false →
  ∃ this1 w1 w2 w3,
    start this w = Returns this1 w1 ∧
    joinable (_dispatch_thread this1) = true ∧
    start this1 w1 = Faults ∧
    stop this1 w1 = Returns this w2 ∧
    calls w2 = calls w ++ [thread_start app; app_stop app; thread_join] ∧
    start this w2 = Returns this1 w3.
Proof.
  intros Happ Hj. destruct this as [r a [j] c]. cbn in Happ, Hj. subst.
  unfold start, stop. destruct w as [s0 cs err ms acs pcs mcs]. run.
  do 4 eexists. split; [reflexivity |]. split; [reflexivity |].
  split; [reflexivity |]. split; [reflexivity |]. cbn.
  split; [by rewrite <- !app_assoc | reflexivity].
Qed.
End lifecycle_more.

(** ** Payload handles, one beside the other *)

Section payloads_more.
Context `{Vsomeip}.
Local Arguments cell_read : simpl never.
Local Arguments cell_write : simpl never.

(** What [payload_get_info] returns is decided by the handle's cell alone. *)
Lemma payload_get_info_cell (q : nat) (w w' : world) :
  cell_read q (payload_cells w') = cell_read q (payload_cells w) →
  ∀ info, payload_get_info (Some q) w = Returns info w →
          payload_get_info (Some q) w' = Returns info w'.
Proof.
  intros Hsame info. unfold payload_get_info. run. rewrite Hsame.
  destruct (cell_read q (payload_cells w)) as [[pl |] |]; cbn;
    intros Heq; by inversion Heq.
Qed.

Lemma payload_get_info_dangling (p : nat) (w : world) :
  cell_read p (payload_cells w) = None →
  payload_get_info (Some p) w = Faults.
Proof. intros Hcell. unfold payload_get_info. run. by rewrite Hcell. Qed.

(** [application_payload_create], when the runtime makes a payload, returns a
    handle that was not live before and that describes the runtime's payload;
    what every handle that was already live describes is unchanged, and
    nothing is called on the session. *)
Theorem payload_create_keeps_others (app : option nat) (this : application)
    (rt : vsomeip.runtime) (bytes : list Byte.byte) (size : Z)
    (pl : vsomeip.payload) (w : world) :
  handle app w = Returns this w →
  _runtime this = Some rt →
  vs_create_payload bytes size = Some pl →
  ∃ p w',
    application_payload_create app bytes size w = Returns (Some p) w' ∧
    cell_read p (payload_cells w) = None ∧
    payload_get_info (Some p) w'
      = Returns {| data := Some (vsomeip.get_data pl);
                   len := vsomeip.get_length pl mod 2 ^ 32 |} w' ∧
    (∀ q info, payload_get_info (Some q) w = Returns info w →
               payload_get_info (Some q) w' = Returns info w') ∧
    calls w' = calls w.
Proof.
  intros Hh Hrt Hpl.
  exists (List.length (payload_cells w)),
         (set_payload_cells (λ h, h ++ [Some (Some pl)]) w).
  split.
  { unfold application_payload_create.
    rewrite (bind_Returns _ _ w this w Hh).
    unfold create_payload. rewrite Hrt, Hpl. by destruct w. }
  split; [apply cell_read_fresh |].
  split; [unfold payload_get_info; destruct w; by run |].
  split; [| by destruct w].
  intros q info Hq. apply (payload_get_info_cell q w); [| exact Hq].
  destruct (cell_read q (payload_cells w)) as [sp |] eqn:Hcell.
  - apply cell_read_Some_lt in Hcell as Hlt. destruct w; cbn in *.
    by rewrite cell_read_old.
  - by rewrite (payload_get_info_dangling q w Hcell) in Hq.
Qed.

(** When the runtime makes no payload, [application_payload_create] and
    [payload_create_empty] return [nullptr] and allocate nothing. *)
Lemma payload_create_null (app : option nat) (this : application)
    (rt : vsomeip.runtime) (bytes : list Byte.byte) (size : Z) (w : world) :
  handle app w = Returns this w →
  _runtime this = Some rt →
  (vs_create_payload bytes size = None →
   application_payload_create app bytes size w = Returns None w) ∧
  (vs_create_payload_empty = None →
   payload_create_empty app w = Returns None w).
Proof.
  intros Hh Hrt.
  split; intros Hnone;
    unfold application_payload_create, payload_create_empty;
    rewrite (bind_Returns _ _ w this w Hh);
    unfold create_payload, create_payload_empty; by rewrite Hrt, Hnone.
Qed.

(** [payload_destroy] on a live handle releases that cell and no other: the
    handle is dangling afterwards, so that [payload_get_info] on it and a
    second [payload_destroy] are faults, while every other handle describes
    what it described before. *)
Theorem payload_destroy_releases (p : nat) (sp : option vsomeip.payload)
    (w : world) :
  cell_read p (payload_cells w) = Some sp →
  ∃ w',
    payload_destroy (Some p) w = Returns tt w' ∧
    payload_get_info (Some p) w' = Faults ∧
    payload_destroy (Some p) w' = Faults ∧
    (∀ q info, q ≠ p →
       payload_get_info (Some q) w = Returns info w →
       payload_get_info (Some q) w' = Returns info w') ∧
    calls w' = calls w.
Proof.
  intros Hcell. exists (set_payload_cells (cell_delete p) w).
  assert (cell_read p (payload_cells (set_payload_cells (cell_delete p) w))
          = None) as Hgone by (destruct w; apply cell_read_delete_eq).
  split.
  { unfold payload_destroy. run. rewrite Hcell. by destruct w. }
  split; [by apply payload_get_info_dangling |].
  split.
  { unfold payload_destroy. apply bind_Faults. by rewrite Hgone. }
  split; [| by destruct w].
  intros q info Hne. apply payload_get_info_cell.
  destruct w; cbn. by apply cell_read_delete_ne.
Qed.

(** A payload handle that is not live (never allocated, or destroyed) cannot be
    destroyed. *)
Lemma payload_destroy_dangling (p : nat) (w : world) :
  cell_read p (payload_cells w) = None →
  payload_destroy (Some p) w = Faults.
Proof. intros Hcell. unfold payload_destroy. apply bind_Faults. by rewrite Hcell. Qed.
End payloads_more.

(** ** What the message handler passes on *)

Section inbound_more.
Context `{Vsomeip} `{VsomeipMessageLength}.
Local Arguments cell_read : simpl never.
Local Arguments cell_write : simpl never.


(** For an inbound message the handler passes the header and a payload handle
    that was not live before.  [payload_get_info] on that handle gives the very
    pointer the header's [data] holds, with the payload's length, and
    [{nullptr, 0}] for a message without payload; the handles that were live
    describe what they described before. *)
Theorem message_handler_payload_handle (m : vsomeip.message) (w : world) :
  ∃ h p w' info,
    message_handler_arguments (Some m) w = Returns (h, Some p) w' ∧
    make_message_header (Some m) w = Returns h w ∧
    cell_read p (payload_cells w) = None ∧
    payload_get_info (Some p) w' = Returns info w' ∧
    data info = hdr.data h ∧
    len info = match vsomeip.get_payload m with
               | Some pl => vsomeip.get_length pl mod 2 ^ 32
               | None => 0
               end ∧
    (∀ q info', payload_get_info (Some q) w = Returns info' w →
                payload_get_info (Some q) w' = Returns info' w').
Proof.
  assert (payload_get_info (Some (List.length (payload_cells w)))
            (set_payload_cells (λ h, h ++ [Some (vsomeip.get_payload m)]) w)
          = Returns
              match vsomeip.get_payload m with
              | Some pl => {| data := Some (vsomeip.get_data pl);
                              len := vsomeip.get_length pl mod 2 ^ 32 |}
              | None => {| data := None; len := 0 |}
              end
              (set_payload_cells
                 (λ h, h ++ [Some (vsomeip.get_payload m)]) w)) as Hinfo.
  { unfold payload_get_info. destruct w. run.
    by destruct (vsomeip.get_payload m). }
  eexists _, (List.length (payload_cells w)),
          (set_payload_cells (λ h, h ++ [Some (vsomeip.get_payload m)]) w), _.
  split; [by destruct w |]. split; [reflexivity |].
  split; [apply cell_read_fresh |]. split; [exact Hinfo |].
  split; [by destruct (vsomeip.get_payload m) |].
  split; [by destruct (vsomeip.get_payload m) |].
  intros q info' Hq. apply (payload_get_info_cell q w); [| exact Hq].
  destruct (cell_read q (payload_cells w)) as [sp |] eqn:Hcell.
  - apply cell_read_Some_lt in Hcell as Hlt. destruct w; cbn in *.
    by rewrite cell_read_old.
  - by rewrite (payload_get_info_dangling q w Hcell) in Hq.
Qed.
End inbound_more.

(** ** The bounds of the eventgroup array *)

Section eventgroups_more.
Context `{Vsomeip}.
Local Arguments cell_read : simpl never.
Local Arguments cell_write : simpl never.

Lemma event_groups_to_set_prefix (groups : list Z) (size : Z) (w : world) :
  0 ≤ size ≤ Z.of_nat (List.length groups) →
  size < 2 ^ 31 →
  event_groups_to_set (Some groups) size w
  = Returns (list_to_set (take (Z.to_nat size) groups)) w.
Proof.
  intros Hsize Hint. unfold event_groups_to_set. run.
  destruct (Z.ltb_spec size (2 ^ 31)); [| lia].
  cbn. rewrite emplace_from_in_range by lia.
  by rewrite drop_0, (right_id_L ∅ (∪)).
Qed.


(** [application_offer_event] and [application_request_event] read exactly
    the first [event_groups_size] entries of the caller's array: with a count
    within the array (and below [2^31]) the eventgroups passed on are those of
    that prefix, the rest of the array is ignored, and a count of zero passes
    on the empty set. *)
Theorem event_registration_reads_prefix (app : option nat)
    (this : application) (session : vsomeip.application) (groups : list Z)
    (size service instance notifier : Z) (is_field : bool) (cycle : Z)
    (change_resets_cycle update_on_change : bool) (w : world) :
  handle app w = Returns this w →
  _application this = Some session →
  0 ≤ size ≤ Z.of_nat (List.length groups) →
  size < 2 ^ 31 →
  let type := if is_field then vsomeip.ET_FIELD else vsomeip.ET_EVENT in
  (∃ w',
     application_offer_event app service instance notifier (Some groups) size
       is_field cycle change_resets_cycle update_on_change w = Returns tt w' ∧
     calls w' = calls w ++
       [app_offer_event session service instance notifier
          (list_to_set (take (Z.to_nat size) groups)) type cycle
          change_resets_cycle update_on_change vsomeip.RT_UNKNOWN]) ∧
  (∃ w',
     application_request_event app service instance notifier (Some groups)
       size is_field w = Returns tt w' ∧
     calls w' = calls w ++
       [app_request_event session service instance notifier
          (list_to_set (take (Z.to_nat size) groups)) type
          vsomeip.RT_UNKNOWN]).
Proof.
  intros Hh Happ Hsize Hint type.
  pose proof (event_groups_to_set_prefix groups size w Hsize Hint) as Hset.
  split.
  - unfold application_offer_event.
    rewrite (bind_Returns _ _ w this w Hh), (bind_Returns _ _ w _ w Hset).
    unfold offer_event. rewrite Happ. destruct w. run.
    eexists. split; reflexivity.
  - unfold application_request_event.
    rewrite (bind_Returns _ _ w this w Hh), (bind_Returns _ _ w _ w Hset).
    unfold request_event. rewrite Happ. destruct w. run.
    eexists. split; reflexivity.
Qed.

End eventgroups_more.

(** ** Messages built and destroyed through the boundary *)

Section messages_more.
Context `{Vsomeip}.
Local Arguments cell_read : simpl never.
Local Arguments cell_write : simpl never.
Local Arguments from_message_type : simpl never.
Local Arguments from_return_code : simpl never.


(** [application_create_message], unlike them, checks the runtime's message:
    without one it returns [nullptr], and since the enum values are looked at
    only afterwards, it does so even for unrecognized values. *)
Theorem application_create_message_without_message (app : option nat)
    (this : application) (rt : vsomeip.runtime)
    (service instance method session mt rc : Z)
    (bytes : option (list Byte.byte)) (data_size : Z) (w : world) :
  handle app w = Returns this w →
  _runtime this = Some rt →
  vs_create_message false = None →
  application_create_message app service instance method session mt rc bytes
    data_size w = Returns None w.
Proof.
  intros Hh Hrt Hnone. unfold application_create_message.
  rewrite (bind_Returns _ _ w this w Hh).
  unfold create_message, new_message. rewrite Hrt, Hnone. by run.
Qed.

(** [application_create_message] with recognized enum values returns a new
    message handle.  The message behind it has the given service, instance,
    method and session, the enumerators of the given numeric values, and the
    payload the runtime built from the bytes when [data_size] is positive;
    client, interface version and, without bytes, the payload are left as the
    runtime made them.  Nothing is sent. *)
Theorem application_create_message_builds (app : option nat)
    (this : application) (rt : vsomeip.runtime) (m0 : vsomeip.message)
    (service instance method session mt rc : Z)
    (data : option (list Byte.byte)) (bytes : list Byte.byte) (data_size : Z)
    (w : world) :
  handle app w = Returns this w →
  _runtime this = Some rt →
  vs_create_message false = Some m0 →
  mt ∈ message_type_values →
  0x00 ≤ rc ≤ 0x0A ∨ rc = 0xFF →
  (0 < data_size → data = Some bytes) →
  ∃ w' built,
    application_create_message app service instance method session mt rc data
      data_size w = Returns (Some (List.length (message_cells w))) w' ∧
    cell_read (List.length (message_cells w)) (message_cells w')
      = Some (Some (List.length (messages w))) ∧
    cell_read (List.length (messages w)) (messages w') = Some built ∧
    vsomeip.get_service built = service ∧
    vsomeip.get_instance built = instance ∧
    vsomeip.get_method built = method ∧
    vsomeip.get_session built = session ∧
    vsomeip.message_type_value (vsomeip.get_message_type built) = mt ∧
    vsomeip.return_code_value (vsomeip.get_return_code built) = rc ∧
    vsomeip.get_client built = vsomeip.get_client m0 ∧
    vsomeip.get_interface_version built = vsomeip.get_interface_version m0 ∧
    vsomeip.get_payload built =
      (if 0 <? data_size then vs_create_payload bytes data_size
       else vsomeip.get_payload m0) ∧
    calls w' = calls w.
Proof.
  intros Hh Hrt Hm0 Hmt Hrc Hdata. unfold application_create_message.
  rewrite (bind_Returns _ _ w this w Hh).
  unfold create_message, create_payload, msg_set, new_message, cell_new.
  rewrite Hrt, Hm0. destruct w as [s0 cs err ms acs pcs mcs]. run.
  match goal with
  | |- context [from_message_type mt ?W] =>
      destruct (from_message_type_recognized mt W Hmt) as (emt & -> & Hvmt)
  end.
  run.
  match goal with
  | |- context [from_return_code rc ?W] =>
      destruct (from_return_code_recognized rc W Hrc) as (erc & -> & Hvrc)
  end.
  run.
  destruct (Z.ltb_spec 0 data_size) as [Hpos | Hzero].
  - rewrite (Hdata Hpos). run.
    do 2 eexists. split; [reflexivity |]. cbn.
    rewrite !cell_write_new, !cell_read_new. by repeat split.
  - run. do 2 eexists. split; [reflexivity |]. cbn.
    rewrite !cell_write_new, !cell_read_new. by repeat split.
Qed.

(** An unrecognized message type ends the process with the message-type
    diagnostic, whatever the return code is; a recognized message type with an
    unrecognized return code ends it with the return-code diagnostic.  In both
    cases no message handle has been made and nothing was sent. *)
Theorem application_create_message_rejects_enums (app : option nat)
    (this : application) (rt : vsomeip.runtime) (m0 : vsomeip.message)
    (service instance method session mt rc : Z)
    (data : option (list Byte.byte)) (data_size : Z) (w : world) :
  handle app w = Returns this w →
  _runtime this = Some rt →
  vs_create_message false = Some m0 →
  (mt ∉ message_type_values →
   ∃ w',
     application_create_message app service instance method session mt rc data
       data_size w = Exits 1 w' ∧
     cerr w' = String.append (cerr w)
       ("Invalid message_type from Rust-FFI: 0x" +:+ hex mt +:+ nl) ∧
     message_cells w' = message_cells w ∧ calls w' = calls w) ∧
  (mt ∈ message_type_values →
   ¬ (0x00 ≤ rc ≤ 0x0A ∨ rc = 0xFF) →
   ∃ w',
     application_create_message app service instance method session mt rc data
       data_size w = Exits 1 w' ∧
     cerr w' = String.append (cerr w)
       ("Invalid return_code from Rust-FFI: 0x" +:+ hex rc +:+ nl) ∧
     message_cells w' = message_cells w ∧ calls w' = calls w).
Proof.
  intros Hh Hrt Hm0. unfold application_create_message.
  rewrite (bind_Returns _ _ w this w Hh).
  unfold create_message, create_payload, msg_set, new_message, cell_new.
  rewrite Hrt, Hm0. destruct w as [s0 cs err ms acs pcs mcs].
  split.
  - intros Hmt. run.
    match goal with
    | |- context [from_message_type mt ?W] =>
        rewrite (from_message_type_unrecognized mt W Hmt)
    end.
    eexists. split; [reflexivity |]. by repeat split.
  - intros Hmt Hrc. run.
    match goal with
    | |- context [from_message_type mt ?W] =>
        destruct (from_message_type_recognized mt W Hmt) as (emt & -> & Hvmt)
    end.
    run.
    match goal with
    | |- context [from_return_code rc ?W] =>
        rewrite (from_return_code_unrecognized rc W Hrc)
    end.
    eexists. split; [reflexivity |]. by repeat split.
Qed.

(** A positive [data_size] with a null [data] pointer fails the [assert],
    after both enum values have been accepted. *)
Theorem application_create_message_null_data (app : option nat)
    (this : application) (rt : vsomeip.runtime) (m0 : vsomeip.message)
    (service instance method session mt rc data_size : Z) (w : world) :
  handle app w = Returns this w →
  _runtime this = Some rt →
  vs_create_message false = Some m0 →
  mt ∈ message_type_values →
  0x00 ≤ rc ≤ 0x0A ∨ rc = 0xFF →
  0 < data_size →
  application_create_message app service instance method session mt rc None
    data_size w = Faults.
Proof.
  intros Hh Hrt Hm0 Hmt Hrc Hpos. unfold application_create_message.
  rewrite (bind_Returns _ _ w this w Hh).
  unfold create_message, create_payload, msg_set, new_message, cell_new.
  rewrite Hrt, Hm0. destruct w as [s0 cs err ms acs pcs mcs]. run.
  match goal with
  | |- context [from_message_type mt ?W] =>
      destruct (from_message_type_recognized mt W Hmt) as (emt & -> & Hvmt)
  end.
  run.
  match goal with
  | |- context [from_return_code rc ?W] =>
      destruct (from_return_code_recognized rc W Hrc) as (erc & -> & Hvrc)
  end.
  run. by destruct (Z.ltb_spec 0 data_size); [| lia].
Qed.

(** [message_destroy] on a live handle releases that cell and no other; a
    second [message_destroy] on it is a fault. *)
Theorem message_destroy_releases (p : nat) (sp : option nat) (w : world) :
  cell_read p (message_cells w) = Some sp →
  ∃ w',
    message_destroy (Some p) w = Returns tt w' ∧
    cell_read p (message_cells w') = None ∧
    message_destroy (Some p) w' = Faults ∧
    (∀ q, q ≠ p →
       cell_read q (message_cells w') = cell_read q (message_cells w)) ∧
    messages w' = messages w ∧ calls w' = calls w.
Proof.
  intros Hcell. exists (set_message_cells (cell_delete p) w).
  assert (cell_read p (message_cells (set_message_cells (cell_delete p) w))
          = None) as Hgone by (destruct w; apply cell_read_delete_eq).
  split.
  { unfold message_destroy. run. rewrite Hcell. by destruct w. }
  split; [exact Hgone |].
  split.
  { unfold message_destroy. apply bind_Faults. by rewrite Hgone. }
  split; [| by destruct w].
  intros q Hne. destruct w; cbn. by apply cell_read_delete_ne.
Qed.
End messages_more.

(** ** A response, as its receiver sees it *)

Section response_header.
Context `{Vsomeip} `{VsomeipMessageLength}.
Local Arguments cell_read : simpl never.
Local Arguments cell_write : simpl never.
Local Arguments from_return_code : simpl never.

(** The message [application_send_response] sends for a recognized return
    code, put through [make_message_header], shows the service, instance,
    method, client, session and interface version that were passed in, message
    type 0x80 and the numeric return code that was passed in; its data pointer
    is that of the payload the runtime built. *)
Theorem response_header_echoes (app : option nat) (this : application)
    (rt : vsomeip.runtime) (session_app : vsomeip.application)
    (m0 : vsomeip.message)
    (service instance method client session major : Z) (reliable : bool)
    (rc : Z) (bytes : list Byte.byte) (data_len : Z) (w : world) :
  handle app w = Returns this w →
  _runtime this = Some rt →
  _application this = Some session_app →
  vs_create_message reliable = Some m0 →
  0x00 ≤ rc ≤ 0x0A ∨ rc = 0xFF →
  ∃ w' sent h,
    application_send_response app service instance method client session major
      reliable rc bytes data_len w = Returns tt w' ∧
    calls w' = calls w ++ [app_send session_app sent] ∧
    make_message_header (Some sent) w' = Returns h w' ∧
    hdr.service h = service ∧
    hdr.instance h = instance ∧
    hdr.method h = method ∧
    hdr.client h = client ∧
    hdr.session h = session ∧
    hdr.if_version h = major ∧
    hdr.message_type h = 0x80 ∧
    hdr.return_code h = rc ∧
    hdr.data h = vsomeip.get_data <$> vs_create_payload bytes data_len.
Proof.
  intros Hh Hrt Happ Hm0 Hrc.
  destruct (from_return_code_recognized rc w Hrc) as (e & He & Hv).
  unfold application_send_response.
  rewrite (bind_Returns _ _ w this w Hh), (bind_Returns _ _ w e w He).
  unfold send_response, send, msg_set, msg_get, new_message, cell_new.
  rewrite Hrt, Happ, Hm0. destruct w. run.
  do 3 eexists. split; [reflexivity |]. split; [reflexivity |].
  split; [reflexivity |]. cbn.
  repeat split; try assumption.
Qed.
End response_header.

(** ** More of the code on concrete inputs *)


Lemma created_application_name_witness :
  ∃ p w',
    @create_application (stub true true) "A1" (@boot (stub true true) 0)
      = Returns (Some p) w' ∧
    application_get_name (Some p) w' = Returns "A1"%string w'.
Proof.
  exact (@created_application_name (stub true true) "A1" vsomeip.the_runtime
           0 0 A1 (@boot (stub true true) 0) eq_refl eq_refl eq_refl).
Defined.


Lemma start_stop_cycle_witness :
  let this := application_ctor (Some vsomeip.the_runtime) (Some A1) in
  ∃ w1 w2,
    @start (stub true true) this (@boot (stub true true) 0)
      = Returns (started A1) w1 ∧
    start (started A1) w1 = Faults ∧
    stop (started A1) w1 = Returns this w2 ∧
    calls w2 = [thread_start A1; app_stop A1; thread_join].
Proof.
  destruct (@start_stop_cycle (stub true true)
              (application_ctor (Some vsomeip.the_runtime) (Some A1)) A1
              (@boot (stub true true) 0) eq_refl eq_refl)
    as (this1 & w1 & w2 & w3 & Hstart & _ & Hagain & Hstop & Hcalls & _).
  assert (this1 = started A1) as -> by (by inversion Hstart).
  exists w1, w2. split; [exact Hstart |]. split; [exact Hagain |].
  split; [exact Hstop | exact Hcalls].
Defined.

Lemma payload_create_keeps_others_witness :
  ∃ p w',
    @application_payload_create (stub true true) (Some 0%nat)
      [Byte.x6f; Byte.x6b; Byte.x21] 2 (@furnished (stub true true) 0)
      = Returns (Some p) w' ∧
    payload_get_info (Some p) w'
      = Returns {| data := Some [Byte.x6f; Byte.x6b]; len := 2 |} w' ∧
    payload_get_info (Some 0%nat) w'
      = Returns {| data := Some [Byte.x68; Byte.x69]; len := 2 |} w' ∧
    payload_get_info (Some 1%nat) w'
      = Returns {| data := None; len := 0 |} w'.
Proof.
  destruct (@payload_create_keeps_others (stub true true) (Some 0%nat)
              (started A1) vsomeip.the_runtime [Byte.x6f; Byte.x6b; Byte.x21] 2
              {| vsomeip.get_data := [Byte.x6f; Byte.x6b] |}
              (@furnished (stub true true) 0) eq_refl eq_refl eq_refl)
    as (p & w' & Hrun & _ & Hinfo & Hothers & _).
  exists p, w'. split; [exact Hrun |]. split; [exact Hinfo |].
  split; apply Hothers; reflexivity.
Defined.

Lemma payload_destroy_releases_witness :
  ∃ w',
    @payload_destroy (stub true true) (Some 0%nat)
      (@furnished (stub true true) 0) = Returns tt w' ∧
    payload_get_info (Some 0%nat) w' = Faults ∧
    payload_destroy (Some 0%nat) w' = Faults ∧
    payload_get_info (Some 1%nat) w'
      = Returns {| data := None; len := 0 |} w'.
Proof.
  destruct (@payload_destroy_releases (stub true true) 0%nat
              (Some {| vsomeip.get_data := [Byte.x68; Byte.x69] |})
              (@furnished (stub true true) 0) eq_refl)
    as (w' & Hrun & Hinfo & Hagain & Hothers & _).
  exists w'. split; [exact Hrun |]. split; [exact Hinfo |].
  split; [exact Hagain |]. apply Hothers; [lia | reflexivity].
Defined.

(** Of four entries the first two are read. *)
Lemma event_registration_reads_prefix_witness :
  ∃ w',
    @application_offer_event (stub true true) (Some 0%nat) 0x1234 0x0001
      0x8001 (Some [5; 6; 7; 8]) 2 false 0 false true
      (@running (stub true true) 0) = Returns tt w' ∧
    calls w' =
      [thread_start A1;
       app_offer_event A1 0x1234 0x0001 0x8001 (list_to_set [5; 6])
         vsomeip.ET_EVENT 0 false true vsomeip.RT_UNKNOWN].
Proof.
  destruct (@event_registration_reads_prefix (stub true true) (Some 0%nat)
              (started A1) A1 [5; 6; 7; 8] 2 0x1234 0x0001 0x8001 false 0
              false true (@running (stub true true) 0) eq_refl eq_refl
              ltac:(cbn; lia) ltac:(lia))
    as ((w' & Hrun & Hcalls) & _).
  exists w'. split; [exact Hrun | exact Hcalls].
Defined.



(** No message from the runtime, and two values no enum has. *)
Lemma application_create_message_without_message_witness :
  @application_create_message (faulty_stub true false) (Some 0%nat) 0x1234
    0x0001 0x0421 0x0042 0x05 0x0B None 0
    (@running (faulty_stub true false) 0)
  = Returns None (@running (faulty_stub true false) 0).
Proof.
  exact (@application_create_message_without_message
           (faulty_stub true false) (Some 0%nat) (started A1)
           vsomeip.the_runtime 0x1234 0x0001 0x0421 0x0042 0x05 0x0B None 0
           (@running (faulty_stub true false) 0) eq_refl eq_refl eq_refl).
Defined.

Lemma application_create_message_builds_witness :
  ∃ w' built,
    @application_create_message (stub true true) (Some 0%nat) 0x1234 0x0001
      0x0421 0x0042 0x02 0x00 (Some [Byte.x68; Byte.x69]) 2
      (@running (stub true true) 0) = Returns (Some 0%nat) w' ∧
    cell_read 0 (message_cells w') = Some (Some 0%nat) ∧
    cell_read 0 (messages w') = Some built ∧
    vsomeip.get_session built = 0x0042 ∧
    vsomeip.get_message_type built = vsomeip.MT_NOTIFICATION ∧
    vsomeip.get_client built = 0 ∧
    vsomeip.get_payload built
      = Some {| vsomeip.get_data := [Byte.x68; Byte.x69] |}.
Proof.
  destruct (@application_create_message_builds (stub true true) (Some 0%nat)
              (started A1) vsomeip.the_runtime (stub_message false) 0x1234
              0x0001 0x0421 0x0042 0x02 0x00 (Some [Byte.x68; Byte.x69])
              [Byte.x68; Byte.x69] 2 (@running (stub true true) 0)
              eq_refl eq_refl eq_refl
              ltac:(unfold message_type_values; rewrite !elem_of_cons; tauto)
              ltac:(lia) ltac:(reflexivity))
    as (w' & built & Hrun & Hcell & Hmsg & _ & _ & _ & Hsession & Hmt & _
        & Hclient & _ & Hpayload & _).
  exists w', built. split; [exact Hrun |]. split; [exact Hcell |].
  split; [exact Hmsg |]. split; [exact Hsession |].
  split; [by destruct (vsomeip.get_message_type built) |].
  split; [exact Hclient | exact Hpayload].
Defined.

Lemma application_create_message_rejects_enums_witness :
  (∃ w',
     @application_create_message (stub true true) (Some 0%nat) 0x1234 0x0001
       0x0421 0x0042 0x05 0x0B None 0 (@running (stub true true) 0)
       = Exits 1 w' ∧
     cerr w' = "Invalid message_type from Rust-FFI: 0x5" +:+ nl) ∧
  (∃ w',
     @application_create_message (stub true true) (Some 0%nat) 0x1234 0x0001
       0x0421 0x0042 0x80 0x0B None 0 (@running (stub true true) 0)
       = Exits 1 w' ∧
     cerr w' = "Invalid return_code from Rust-FFI: 0xb" +:+ nl).
Proof.
  split.
  - destruct (@application_create_message_rejects_enums (stub true true)
                (Some 0%nat) (started A1) vsomeip.the_runtime
                (stub_message false) 0x1234 0x0001 0x0421 0x0042 0x05 0x0B None
                0 (@running (stub true true) 0) eq_refl eq_refl eq_refl)
      as (Hmt & _).
    destruct Hmt as (w' & Hrun & Herr & _).
    { unfold message_type_values. rewrite !elem_of_cons, elem_of_nil. lia. }
    exists w'. split; [exact Hrun | exact Herr].
  - destruct (@application_create_message_rejects_enums (stub true true)
                (Some 0%nat) (started A1) vsomeip.the_runtime
                (stub_message false) 0x1234 0x0001 0x0421 0x0042 0x80 0x0B None
                0 (@running (stub true true) 0) eq_refl eq_refl eq_refl)
      as (_ & Hrc).
    destruct Hrc as (w' & Hrun & Herr & _).
    { unfold message_type_values. rewrite !elem_of_cons. tauto. }
    { lia. }
    exists w'. split; [exact Hrun | exact Herr].
Defined.

Lemma application_create_message_null_data_witness :
  @application_create_message (stub true true) (Some 0%nat) 0x1234 0x0001
    0x0421 0x0042 0x80 0x00 None 4 (@running (stub true true) 0) = Faults.
Proof.
  apply (@application_create_message_null_data (stub true true) (Some 0%nat)
           (started A1) vsomeip.the_runtime (stub_message false));
    try reflexivity; try lia.
  unfold message_type_values. rewrite !elem_of_cons. tauto.
Defined.

Lemma message_destroy_releases_witness :
  ∃ w',
    @message_destroy (stub true true) (Some 0%nat)
      (@furnished (stub true true) 0) = Returns tt w' ∧
    message_destroy (Some 0%nat) w' = Faults.
Proof.
  destruct (@message_destroy_releases (stub true true) 0%nat (Some 0%nat)
              (@furnished (stub true true) 0) eq_refl)
    as (w' & Hrun & _ & Hagain & _).
  exists w'. split; [exact Hrun | exact Hagain].
Defined.

(** The scenario of the spec, seen from the receiving side. *)
Lemma response_header_echoes_witness :
  ∃ w' sent h,
    @application_send_response (stub true true) (Some 0%nat) 0x1234 0x0001
      0x0421 0x07 0x0042 1 true 0x03 [Byte.x68; Byte.x69] 2
      (@running (stub true true) 0) = Returns tt w' ∧
    calls w' = [thread_start A1; app_send A1 sent] ∧
    @make_message_header (stub true true) stub_length (Some sent) w'
      = Returns h w' ∧
    hdr.client h = 0x07 ∧ hdr.session h = 0x0042 ∧
    hdr.message_type h = 0x80 ∧ hdr.return_code h = 0x03 ∧
    hdr.data h = Some [Byte.x68; Byte.x69].
Proof.
  destruct (@response_header_echoes (stub true true) stub_length (Some 0%nat)
              (started A1) vsomeip.the_runtime A1 (stub_message true) 0x1234
              0x0001 0x0421 0x07 0x0042 1 true 0x03 [Byte.x68; Byte.x69] 2
              (@running (stub true true) 0) eq_refl eq_refl eq_refl eq_refl
              ltac:(lia))
    as (w' & sent & h & Hrun & Hcalls & Hh & _ & _ & _ & Hc & Hs & _ & Hmt
        & Hrc & Hdata).
  exists w', sent, h. split; [exact Hrun |]. split; [exact Hcalls |].
  split; [exact Hh |]. split; [exact Hc |]. split; [exact Hs |].
  split; [exact Hmt |]. split; [exact Hrc | exact Hdata].
Defined.

(** An inbound request as the message handler hands it on: the header, and
    a payload handle beside the two that were there. *)
Example inbound_request_handed_on :
  ∃ w',
    @message_handler_arguments (stub true true) stub_length
      (Some inbound_request) (@furnished (stub true true) 0)
    = Returns
        ({| hdr.service := 0x1234; hdr.instance := 0x0001;
            hdr.method := 0x0421; hdr.client := 0x07; hdr.session := 0x0042;
            hdr.proto_version := 1; hdr.if_version := 1;
            hdr.message_type := 0x00; hdr.return_code := 0x00;
            hdr.is_initial := false; hdr.is_reliable := true;
            hdr.data := Some [Byte.x68; Byte.x69]; hdr.data_size := 10 |},
         Some 2%nat) w' ∧
    payload_get_info (Some 2%nat) w'
      = Returns {| data := Some [Byte.x68; Byte.x69]; len := 2 |} w'.
Proof. eexists. split; reflexivity. Qed.

Lemma application_send_unrecognized_return_code_witness :
  ∃ w',
    @application_send_response (stub true true) (Some 0%nat) 0x1234 0x0001
      0x0421 0x07 0x0042 1 true 0x0B [Byte.x68] 1
      (@running (stub true true) 0) = Exits 1 w' ∧
    @application_send_error (stub true true) (Some 0%nat) 0x1234 0x0001 0x0421
      0x07 0x0042 1 true 0x0B (@running (stub true true) 0) = Exits 1 w' ∧
    calls w' = [thread_start A1].
Proof.
  destruct (@application_send_unrecognized_return_code (stub true true)
              (Some 0%nat) (started A1) 0x1234 0x0001 0x0421 0x07 0x0042 1
              true 0x0B [Byte.x68] 1 (@running (stub true true) 0) eq_refl
              ltac:(lia))
    as (w' & Hresp & Herr & Hcalls & _).
  exists w'. split; [exact Hresp |]. split; [exact Herr | exact Hcalls].
Defined.
